(** * Swap quoting sessions of ref-ui: [src/state/swap.tsx]

    A shallow embedding of the two React hooks [useSwap] and
    [useStableSwap]: the derived [minAmountOut], the estimation cycle
    [getEstimate] with its promise chain, [setAverageFee], and the effect
    that resolves the outcome of a transaction named in the URL.

    State cells of a hook ([useState]) are fields of a record; a call of a
    setter is an event, and a handler is a computation that issues events in
    program order and either completes or throws.  The cells after a handler
    are the cells before it with its events applied in order.  A cycle is
    followed from the call of [getEstimate] to the settlement of its promise
    chain; its callbacks read the options of the render that started it, as
    the closures of the source do.  Services that the hooks import and that
    are not among the sources are parameters. *)

From Stdlib Require Import String Ascii List Bool NArith ZArith QArith Lia.
Import ListNotations.
Open Scope string_scope.

(** ** JavaScript values used by the hooks *)

(** A string in a condition: only the empty string is falsy. *)
Definition truthy (s : string) : bool :=
  match s with
  | EmptyString => false
  | String _ _ => true
  end.

(** A JavaScript number, with exact rational arithmetic in place of doubles.
    [NaN] is the reading of a string that is no decimal numeral. *)
Inductive number : Type :=
| NaN
| Num (q : Q).

(** Values that reach a [catch] handler. *)
Inductive JsError : Type :=
| EmptyStringThrown            (* throw '' *)
| TypeError                    (* a property of undefined was read *)
| Rejection (message : string) (* the reason of a rejected promise *).

(** A state cell declared [useState<Error>()] and later set to [null] or to
    the caught value. *)
Inductive ErrorCell : Type :=
| ErrUndefined
| ErrNull
| ErrCaught (e : JsError).

(** ** [ONLY_ZEROS = /^0*\.?0*$/] *)

Fixpoint skip_zeros (s : string) : string :=
  match s with
  | String "0"%char rest => skip_zeros rest
  | _ => s
  end.

Definition skip_point (s : string) : string :=
  match s with
  | String "."%char rest => rest
  | _ => s
  end.

(** [ONLY_ZEROS.test(s)]: zeros, at most one point, zeros, end of input. *)
Definition ONLY_ZEROS_test (s : string) : bool :=
  negb (truthy (skip_zeros (skip_point (skip_zeros s)))).

(** The language of the regular expression, written out. *)
Fixpoint zeros (n : nat) : string :=
  match n with
  | O => ""
  | S k => String "0"%char (zeros k)
  end.

Definition in_ONLY_ZEROS (s : string) : Prop :=
  exists n m, s = zeros n ++ zeros m \/ s = zeros n ++ "." ++ zeros m.

(** A string made of the character 0 alone. *)
Fixpoint all_zero_digits (s : string) : bool :=
  match s with
  | EmptyString => true
  | String c rest => Ascii.eqb c "0"%char && all_zero_digits rest
  end.

(** ** Reading a decimal numeral *)

Definition digit_of (c : ascii) : option N :=
  let n := N_of_ascii c in
  if ((48 <=? n) && (n <=? 57))%N then Some (n - 48)%N else None.

(** [read_decimal s mant scale seen]: [mant] is the value of the digits read
    so far, [scale] is [None] before the point and [Some (10^k)] after [k]
    fraction digits, [seen] tells whether a digit was read. *)
Fixpoint read_decimal (s : string) (mant : N) (scale : option positive)
  (seen : bool) : number :=
  match s with
  | EmptyString =>
      if seen
      then Num (Z.of_N mant # match scale with Some d => d | None => 1 end)
      else NaN
  | String c rest =>
      if Ascii.eqb c "."%char
      then match scale with
           | None => read_decimal rest mant (Some 1%positive) seen
           | Some _ => NaN
           end
      else match digit_of c with
           | Some d =>
               read_decimal rest (10 * mant + d)%N
                 (option_map (Pos.mul 10) scale) true
           | None => NaN
           end
  end.

(** The numeric reading of an amount string: unsigned digits with at most one
    point, as the amount fields and [ONLY_ZEROS] have them. *)
Definition decimal_value (s : string) : number := read_decimal s 0%N None false.

(** ** [percentLess] and [minAmountOut] *)

(** [import { percentLess } from '../utils/numbers']: the module is not among
    the sources.  The hooks only call [percentLess] and hand its result on,
    so they are stated for any implementation of it, with whatever type its
    results have. *)
Class Numbers : Type := {
  MinAmount : Type;
  percentLess : Q -> string -> MinAmount
}.

(** [const minAmountOut = tokenOutAmount
      ? percentLess(slippageTolerance, tokenOutAmount) : null;]
    the same expression in both hooks; [None] is [null]. *)
Definition minAmountOut_of {numbers : Numbers} (slippageTolerance : Q)
  (tokenOutAmount : string) : option MinAmount :=
  if truthy tokenOutAmount
  then Some (percentLess slippageTolerance tokenOutAmount)
  else None.

(** ** Handlers: events, completion, promise chaining *)

Section Handlers.

Variable Event : Type.

Inductive Completion (A : Type) : Type :=
| Normal (a : A)
| Throw (e : JsError).

(** The events issued so far and how the computation ended.  The same shape
    serves for a promise: the events issued before it settled, and
    [Normal] for fulfilled, [Throw] for rejected. *)
Definition Eff (A : Type) : Type := (list Event * Completion A)%type.

Definition ret {A} (a : A) : Eff A := ([], Normal A a).
Definition emit (e : Event) : Eff unit := ([e], Normal unit tt).
Definition throw {A} (e : JsError) : Eff A := ([], Throw A e).

Definition bind {A B} (m : Eff A) (f : A -> Eff B) : Eff B :=
  match m with
  | (l, Normal _ a) => let (l', r) := f a in ((l ++ l')%list, r)
  | (l, Throw _ e) => (l, Throw B e)
  end.

(** [p.then(f)]: [f] runs on fulfilment; a throw in [f] rejects. *)
Definition then_ {A B} (p : Eff A) (f : A -> Eff B) : Eff B := bind p f.

(** [p.catch(g)]: [g] runs on rejection and its completion settles the
    result; a fulfilled [p] passes through. *)
Definition catch_ {A} (p : Eff A) (g : JsError -> Eff A) : Eff A :=
  match p with
  | (l, Normal _ a) => (l, Normal A a)
  | (l, Throw _ e) => let (l', r) := g e in ((l ++ l')%list, r)
  end.

(** [p.finally(h)]: [h] runs either way; the settlement of [p] is kept
    unless [h] throws. *)
Definition finally_ {A} (p : Eff A) (h : Eff unit) : Eff A :=
  let (l, r) := p in
  match h with
  | (l', Normal _ _) => ((l ++ l')%list, r)
  | (l', Throw _ e) => ((l ++ l')%list, Throw A e)
  end.

Definition events {A} (m : Eff A) : list Event := fst m.
Definition completion {A} (m : Eff A) : Completion A := snd m.

End Handlers.

Arguments Normal {A} a.
Arguments Throw {A} e.
Arguments ret {Event A} a.
Arguments emit {Event} e.
Arguments throw {Event A} e.
Arguments bind {Event A B} m f.
Arguments then_ {Event A B} p f.
Arguments catch_ {Event A} p g.
Arguments finally_ {Event A} p h.
Arguments events {Event A} m.
Arguments completion {Event A} m.

Declare Scope eff_scope.
Delimit Scope eff_scope with eff.
Notation "m ;; k" := (bind m (fun _ => k))
  (at level 61, right associativity) : eff_scope.
Notation "x <- m ;; k" := (bind m (fun x => k))
  (at level 61, m at next level, right associativity) : eff_scope.

(** ** Data shared by the two hooks *)

(** Modelled from the spec: the declaration of [TokenMetadata]
    ([services/ft-contract]) is not among the sources; a token is an
    identifier, a symbol and a decimal precision. *)
Record TokenMetadata : Type := {
  id : string;
  symbol : string;
  decimals : N
}.

(** Modelled from the spec: the declaration of [Pool] ([services/pool]) is not
    among the sources; the hooks read the fee rate only. *)
Record Pool : Type := {
  pool_id : N;
  fee : Q
}.

(** Modelled from the spec: the enumeration [PoolMode] ([services/swap]) is not
    among the sources; the mode tag of a route leg is one of these three. *)
Inductive PoolMode : Type :=
| PARALLEL
| STABLE
| SMART.

Definition PoolMode_eqb (a b : PoolMode) : bool :=
  match a, b with
  | PARALLEL, PARALLEL | STABLE, STABLE | SMART, SMART => true
  | _, _ => false
  end.

(** [interface SwapOptions], the data fields.  An absent token is [None]; an
    absent optional flag reads as [false].  The setters among the options are
    events of the hook below; [intl] and the stable pool snapshot are handed
    to the estimator untouched and are part of the estimator here. *)
Record SwapOptions : Type := {
  tokenIn : option TokenMetadata;
  tokenInAmount : string;
  tokenOut : option TokenMetadata;
  slippageTolerance : Q;
  loadingData : bool;
  loadingTrigger : bool;
  loadingPause : bool
}.

(** One route leg, [EstimateSwapView], with the fields [useSwap] reads.  The
    route graphs are opaque to the hook. *)
Module View.
Section Legs.
Variables Routes NodeRoutes : Type.

Record EstimateSwapView : Type := {
  status : PoolMode;
  pool : Pool;
  allRoutes : Routes;
  allNodeRoutes : NodeRoutes;
  totalInputAmount : string
}.
End Legs.

Arguments status {Routes NodeRoutes} e.
Arguments pool {Routes NodeRoutes} e.
Arguments allRoutes {Routes NodeRoutes} e.
Arguments allNodeRoutes {Routes NodeRoutes} e.
Arguments totalInputAmount {Routes NodeRoutes} e.
End View.

(** What the stable estimator resolves to: [{ estimate, pool, dy }].  An
    absent [estimate] or [dy] is the empty string, an absent [pool] is
    [None]. *)
Module StableView.
Record StableEstimate : Type := {
  estimate : string;
  pool : option Pool;
  dy : string
}.
End StableView.

(** * [useSwap] *)

Module UseSwap.
Section Hook.

Variables Routes NodeRoutes BigNumber : Type.

Local Abbreviation EstimateSwapView :=
  (View.EstimateSwapView Routes NodeRoutes).

(** Helpers of [services/smartRouteLogic] and the estimator of
    [services/swap], none of them among the sources: parameters of the
    hook.  The estimator is given by how its promise settles; the
    [setLoadingData] it is handed writes a cell of the caller that the hook
    does not read. *)
Variable getAverageFeeForRoutes : Routes -> NodeRoutes -> string -> Q.
Variable getExpectedOutputFromActions :
  list EstimateSwapView -> string -> BigNumber.
Variable toString : BigNumber -> string.

Record EstimateSwapArgs : Type := {
  arg_tokenIn : TokenMetadata;
  arg_tokenOut : TokenMetadata;
  arg_amountIn : string;
  arg_loadingTrigger : bool
}.

Variable estimateSwap :
  EstimateSwapArgs -> Completion (option (list EstimateSwapView)).

(** The cells of the hook, and the caller's [loadingTrigger] cell that the
    hook writes through [setLoadingTrigger]. *)
Record State : Type := {
  pool : option Pool;
  canSwap : option bool;
  tokenOutAmount : string;
  swapError : ErrorCell;
  swapsToDo : option (list EstimateSwapView);
  avgFee : Q;
  count : nat;
  loadingTriggerCell : bool
}.

Definition initial : State := {|
  pool := None;
  canSwap := None;
  tokenOutAmount := "";
  swapError := ErrUndefined;
  swapsToDo := None;
  avgFee := 0;
  count := 0;
  loadingTriggerCell := false
|}.

Inductive Event : Type :=
| SetPool (p : Pool)
| SetCanSwap (b : bool)
| SetTokenOutAmount (s : string)
| SetSwapError (e : ErrorCell)
| SetSwapsToDo (l : list EstimateSwapView)
| SetAvgFee (f : Q)
| SetCount (n : nat)
| SetLoadingTrigger (b : bool)
| CallEstimateSwap (a : EstimateSwapArgs).

Definition apply (st : State) (ev : Event) : State :=
  match ev with
  | SetPool p =>
      {| pool := Some p; canSwap := canSwap st;
         tokenOutAmount := tokenOutAmount st; swapError := swapError st;
         swapsToDo := swapsToDo st; avgFee := avgFee st; count := count st;
         loadingTriggerCell := loadingTriggerCell st |}
  | SetCanSwap b =>
      {| pool := pool st; canSwap := Some b;
         tokenOutAmount := tokenOutAmount st; swapError := swapError st;
         swapsToDo := swapsToDo st; avgFee := avgFee st; count := count st;
         loadingTriggerCell := loadingTriggerCell st |}
  | SetTokenOutAmount s =>
      {| pool := pool st; canSwap := canSwap st;
         tokenOutAmount := s; swapError := swapError st;
         swapsToDo := swapsToDo st; avgFee := avgFee st; count := count st;
         loadingTriggerCell := loadingTriggerCell st |}
  | SetSwapError e =>
      {| pool := pool st; canSwap := canSwap st;
         tokenOutAmount := tokenOutAmount st; swapError := e;
         swapsToDo := swapsToDo st; avgFee := avgFee st; count := count st;
         loadingTriggerCell := loadingTriggerCell st |}
  | SetSwapsToDo l =>
      {| pool := pool st; canSwap := canSwap st;
         tokenOutAmount := tokenOutAmount st; swapError := swapError st;
         swapsToDo := Some l; avgFee := avgFee st; count := count st;
         loadingTriggerCell := loadingTriggerCell st |}
  | SetAvgFee f =>
      {| pool := pool st; canSwap := canSwap st;
         tokenOutAmount := tokenOutAmount st; swapError := swapError st;
         swapsToDo := swapsToDo st; avgFee := f; count := count st;
         loadingTriggerCell := loadingTriggerCell st |}
  | SetCount n =>
      {| pool := pool st; canSwap := canSwap st;
         tokenOutAmount := tokenOutAmount st; swapError := swapError st;
         swapsToDo := swapsToDo st; avgFee := avgFee st; count := n;
         loadingTriggerCell := loadingTriggerCell st |}
  | SetLoadingTrigger b =>
      {| pool := pool st; canSwap := canSwap st;
         tokenOutAmount := tokenOutAmount st; swapError := swapError st;
         swapsToDo := swapsToDo st; avgFee := avgFee st; count := count st;
         loadingTriggerCell := b |}
  | CallEstimateSwap _ => st
  end.

Definition run (st : State) (evs : list Event) : State :=
  fold_left apply evs st.

(** The estimator was invoked. *)
Definition is_call (ev : Event) : bool :=
  match ev with
  | CallEstimateSwap _ => true
  | _ => false
  end.

Definition calls_estimator (evs : list Event) : bool := existsb is_call evs.

Definition call_estimateSwap (a : EstimateSwapArgs)
  : Eff Event (option (list EstimateSwapView)) :=
  ([CallEstimateSwap a], estimateSwap a).

Local Open Scope eff_scope.

(** [setAverageFee] (lines 91-109).  On an empty list [estimates[0]] is
    undefined and reading its [status] throws. *)
Definition averageFee (estimate : EstimateSwapView)
  (estimates : list EstimateSwapView) : Q :=
  if PoolMode_eqb (View.status estimate) SMART
     || PoolMode_eqb (View.status estimate) STABLE
  then fold_left (fun pre cur => pre + fee (View.pool cur)) estimates 0
  else getAverageFeeForRoutes (View.allRoutes estimate)
         (View.allNodeRoutes estimate) (View.totalInputAmount estimate).

Definition setAverageFee (estimates : list EstimateSwapView)
  : Eff Event unit :=
  match estimates with
  | [] => throw TypeError
  | estimate :: _ => emit (SetAvgFee (averageFee estimate estimates))
  end.

(** The [then] callback of [getEstimate] (lines 152-169); [tout] is the
    [tokenOut] the guard of line 137 found present. *)
Definition onEstimates (o : SwapOptions) (tout : TokenMetadata)
  (estimates : option (list EstimateSwapView)) : Eff Event unit :=
  match estimates with
  | None => throw EmptyStringThrown
  | Some es =>
      (if truthy (tokenInAmount o) && negb (ONLY_ZEROS_test (tokenInAmount o))
       then
         emit (SetCanSwap true) ;;
         setAverageFee es ;;
         if negb (loadingTrigger o)
         then
           emit (SetTokenOutAmount
                   (toString (getExpectedOutputFromActions es (id tout)))) ;;
           emit (SetSwapsToDo es)
         else ret tt
       else ret tt) ;;
      match es with
      | [] => throw TypeError
      | first :: _ => emit (SetPool (View.pool first))
      end
  end.

(** The [catch] callback (lines 170-174). *)
Definition onError (err : JsError) : Eff Event unit :=
  emit (SetCanSwap false) ;;
  emit (SetTokenOutAmount "") ;;
  emit (SetSwapError (ErrCaught err)).

(** The arguments of the call of line 144. *)
Definition estimate_args (o : SwapOptions) (tin tout : TokenMetadata)
  : EstimateSwapArgs :=
  {| arg_tokenIn := tin;
     arg_tokenOut := tout;
     arg_amountIn := tokenInAmount o;
     arg_loadingTrigger := loadingTrigger o && negb (loadingPause o) |}.

(** The promise chain [estimateSwap(...).then(...).catch(...).finally(...)]
    (lines 144-175), run to its settlement. *)
Definition estimation (o : SwapOptions) (tin tout : TokenMetadata)
  : Eff Event unit :=
  finally_
    (catch_
       (then_ (call_estimateSwap (estimate_args o tin tout))
          (onEstimates o tout))
       onError)
    (emit (SetLoadingTrigger false)).

(** [getEstimate] (lines 134-185). *)
Definition getEstimate (o : SwapOptions) : Eff Event unit :=
  emit (SetCanSwap false) ;;
  match tokenIn o, tokenOut o with
  | Some tin, Some tout =>
      if negb (String.eqb (id tin) (id tout))
      then
        emit (SetSwapError ErrNull) ;;
        if negb (truthy (tokenInAmount o)) || ONLY_ZEROS_test (tokenInAmount o)
        then emit (SetTokenOutAmount "0")
        else estimation o tin tout
      else
        if negb (truthy (tokenInAmount o))
           && ONLY_ZEROS_test (tokenInAmount o)
           && negb (String.eqb (id tin) (id tout))
        then emit (SetTokenOutAmount "0")
        else ret tt
  | _, _ => ret tt
  end.

(** The refresh timer (lines 191-204): an interval is set exactly when
    neither flag is up, and its tick raises [loadingTrigger]. *)
Definition timer_armed (o : SwapOptions) : bool :=
  negb (loadingTrigger o) && negb (loadingPause o).

Definition timer_tick (st : State) : Eff Event unit :=
  emit (SetLoadingTrigger true) ;;
  emit (SetCount (count st + 1)).

(** The [minAmountOut] the hook returns (lines 84-86). *)
Definition minAmountOut {numbers : Numbers} (o : SwapOptions) (st : State)
  : option MinAmount :=
  minAmountOut_of (slippageTolerance o) (tokenOutAmount st).

(** How a cycle of the estimator fails, with the value the [catch] callback
    receives: the promise rejects, or it resolves to nothing or to an empty
    list of estimates. *)
Definition failure (r : Completion (option (list EstimateSwapView)))
  : option JsError :=
  match r with
  | Throw e => Some e
  | Normal None => Some EmptyStringThrown
  | Normal (Some []) => Some TypeError
  | Normal (Some (_ :: _)) => None
  end.

(** The sum of the pool fees of the legs. *)
Definition leg_fee_sum (estimates : list EstimateSwapView) : Q :=
  fold_right (fun leg acc => fee (View.pool leg) + acc) 0 estimates.

End Hook.

Arguments pool {Routes NodeRoutes} s.
Arguments canSwap {Routes NodeRoutes} s.
Arguments tokenOutAmount {Routes NodeRoutes} s.
Arguments swapError {Routes NodeRoutes} s.
Arguments swapsToDo {Routes NodeRoutes} s.
Arguments avgFee {Routes NodeRoutes} s.
Arguments count {Routes NodeRoutes} s.
Arguments loadingTriggerCell {Routes NodeRoutes} s.
Arguments SetPool {Routes NodeRoutes} p.
Arguments SetCanSwap {Routes NodeRoutes} b.
Arguments SetTokenOutAmount {Routes NodeRoutes} s.
Arguments SetSwapError {Routes NodeRoutes} e.
Arguments SetSwapsToDo {Routes NodeRoutes} l.
Arguments SetAvgFee {Routes NodeRoutes} f.
Arguments SetCount {Routes NodeRoutes} n.
Arguments SetLoadingTrigger {Routes NodeRoutes} b.
Arguments CallEstimateSwap {Routes NodeRoutes} a.
Arguments initial {Routes NodeRoutes}.
Arguments apply {Routes NodeRoutes} st ev.
Arguments run {Routes NodeRoutes} st evs.
Arguments is_call {Routes NodeRoutes} ev.
Arguments calls_estimator {Routes NodeRoutes} evs.
Arguments minAmountOut {Routes NodeRoutes numbers} o st.
Arguments onError {Routes NodeRoutes} err.
Arguments timer_tick {Routes NodeRoutes} st.
Arguments failure {Routes NodeRoutes} r.
Arguments leg_fee_sum {Routes NodeRoutes} estimates.
Arguments setAverageFee {Routes NodeRoutes} getAverageFeeForRoutes estimates.
Arguments averageFee {Routes NodeRoutes} getAverageFeeForRoutes estimate
estimates.
Arguments onEstimates {Routes NodeRoutes BigNumber} getAverageFeeForRoutes
getExpectedOutputFromActions toString o tout estimates.
Arguments getEstimate {Routes NodeRoutes BigNumber} getAverageFeeForRoutes
getExpectedOutputFromActions toString estimateSwap o.
Arguments call_estimateSwap {Routes NodeRoutes} estimateSwap a.
Arguments estimation {Routes NodeRoutes BigNumber} getAverageFeeForRoutes
getExpectedOutputFromActions toString estimateSwap o tin tout.
End UseSwap.

(** * [useStableSwap] *)

Module UseStableSwap.
Section Hook.

Record EstimateStableArgs : Type := {
  arg_tokenIn : TokenMetadata;
  arg_tokenOut : TokenMetadata;
  arg_amountIn : string;
  arg_loadingTrigger : bool
}.

(** The estimator is handed [setLoadingTrigger] and [setCanSwap] (lines
    268 and 270).  What it does with them is not among the sources: it is
    given by the calls it makes on them before its promise settles. *)
Inductive Callback : Type :=
| ViaSetLoadingTrigger (b : bool)
| ViaSetCanSwap (b : bool).

(** The estimator of [services/stable-swap], not among the sources: a
    parameter of the hook, given by its callback calls and by how its
    promise settles ([None]: it resolves to undefined). *)
Variable estimateStableSwap :
  EstimateStableArgs ->
  list Callback * Completion (option StableView.StableEstimate).

Record State : Type := {
  pool : option Pool;
  canSwap : option bool;
  tokenOutAmount : string;
  swapError : ErrorCell;
  noFeeAmount : string;
  tokenInAmountMemo : string;
  loadingTriggerCell : bool
}.

Definition initial : State := {|
  pool := None;
  canSwap := None;
  tokenOutAmount := "";
  swapError := ErrUndefined;
  noFeeAmount := "";
  tokenInAmountMemo := "";
  loadingTriggerCell := false
|}.

Inductive Event : Type :=
| SetPool (p : Pool)
| SetCanSwap (b : bool)
| SetTokenOutAmount (s : string)
| SetSwapError (e : ErrorCell)
| SetNoFeeAmount (s : string)
| SetTokenInAmountMemo (s : string)
| SetLoadingTrigger (b : bool)
| CallEstimateStableSwap (a : EstimateStableArgs).

Definition apply (st : State) (ev : Event) : State :=
  match ev with
  | SetPool p =>
      {| pool := Some p; canSwap := canSwap st;
         tokenOutAmount := tokenOutAmount st; swapError := swapError st;
         noFeeAmount := noFeeAmount st;
         tokenInAmountMemo := tokenInAmountMemo st;
         loadingTriggerCell := loadingTriggerCell st |}
  | SetCanSwap b =>
      {| pool := pool st; canSwap := Some b;
         tokenOutAmount := tokenOutAmount st; swapError := swapError st;
         noFeeAmount := noFeeAmount st;
         tokenInAmountMemo := tokenInAmountMemo st;
         loadingTriggerCell := loadingTriggerCell st |}
  | SetTokenOutAmount s =>
      {| pool := pool st; canSwap := canSwap st;
         tokenOutAmount := s; swapError := swapError st;
         noFeeAmount := noFeeAmount st;
         tokenInAmountMemo := tokenInAmountMemo st;
         loadingTriggerCell := loadingTriggerCell st |}
  | SetSwapError e =>
      {| pool := pool st; canSwap := canSwap st;
         tokenOutAmount := tokenOutAmount st; swapError := e;
         noFeeAmount := noFeeAmount st;
         tokenInAmountMemo := tokenInAmountMemo st;
         loadingTriggerCell := loadingTriggerCell st |}
  | SetNoFeeAmount s =>
      {| pool := pool st; canSwap := canSwap st;
         tokenOutAmount := tokenOutAmount st; swapError := swapError st;
         noFeeAmount := s;
         tokenInAmountMemo := tokenInAmountMemo st;
         loadingTriggerCell := loadingTriggerCell st |}
  | SetTokenInAmountMemo s =>
      {| pool := pool st; canSwap := canSwap st;
         tokenOutAmount := tokenOutAmount st; swapError := swapError st;
         noFeeAmount := noFeeAmount st;
         tokenInAmountMemo := s;
         loadingTriggerCell := loadingTriggerCell st |}
  | SetLoadingTrigger b =>
      {| pool := pool st; canSwap := canSwap st;
         tokenOutAmount := tokenOutAmount st; swapError := swapError st;
         noFeeAmount := noFeeAmount st;
         tokenInAmountMemo := tokenInAmountMemo st;
         loadingTriggerCell := b |}
  | CallEstimateStableSwap _ => st
  end.

Definition run (st : State) (evs : list Event) : State :=
  fold_left apply evs st.

Definition is_call (ev : Event) : bool :=
  match ev with
  | CallEstimateStableSwap _ => true
  | _ => false
  end.

Definition calls_estimator (evs : list Event) : bool := existsb is_call evs.

Definition event_of_callback (c : Callback) : Event :=
  match c with
  | ViaSetLoadingTrigger b => SetLoadingTrigger b
  | ViaSetCanSwap b => SetCanSwap b
  end.

(** The events the estimator issues through the two setters it is handed. *)
Definition callback_events (a : EstimateStableArgs) : list Event :=
  map event_of_callback (fst (estimateStableSwap a)).

Definition call_estimateStableSwap (a : EstimateStableArgs)
  : Eff Event (option StableView.StableEstimate) :=
  (CallEstimateStableSwap a :: callback_events a,
   snd (estimateStableSwap a)).

Local Open Scope eff_scope.

(** The [then] callback (lines 272-282).  Destructuring an undefined result
    throws. *)
Definition onEstimate (o : SwapOptions)
  (result : option StableView.StableEstimate) : Eff Event unit :=
  match result with
  | None => throw TypeError
  | Some r =>
      match truthy (StableView.estimate r), StableView.pool r with
      | true, Some pl =>
          if truthy (tokenInAmount o)
             && negb (ONLY_ZEROS_test (tokenInAmount o))
          then
            emit (SetCanSwap true) ;;
            (if negb (loadingTrigger o)
             then
               emit (SetNoFeeAmount (StableView.dy r)) ;;
               emit (SetTokenOutAmount (StableView.estimate r))
             else ret tt) ;;
            emit (SetPool pl)
          else ret tt
      | _, _ => throw EmptyStringThrown
      end
  end.

(** The [catch] callback (lines 283-288). *)
Definition onError (err : JsError) : Eff Event unit :=
  emit (SetCanSwap false) ;;
  emit (SetTokenOutAmount "") ;;
  emit (SetNoFeeAmount "") ;;
  emit (SetSwapError (ErrCaught err)).

(** The arguments of the call of line 262. *)
Definition estimate_args (o : SwapOptions) (tin tout : TokenMetadata)
  : EstimateStableArgs :=
  {| arg_tokenIn := tin;
     arg_tokenOut := tout;
     arg_amountIn := tokenInAmount o;
     arg_loadingTrigger := loadingTrigger o |}.

(** The promise chain [estimateStableSwap(...).then(...).catch(...)] (lines
    262-288), run to its settlement. *)
Definition estimation (o : SwapOptions) (tin tout : TokenMetadata)
  : Eff Event unit :=
  catch_
    (then_ (call_estimateStableSwap (estimate_args o tin tout))
       (onEstimate o))
    onError.

(** [getEstimate] (lines 257-298). *)
Definition getEstimate (o : SwapOptions) : Eff Event unit :=
  emit (SetCanSwap false) ;;
  match tokenIn o, tokenOut o with
  | Some tin, Some tout =>
      if negb (String.eqb (id tin) (id tout))
      then
        emit (SetSwapError ErrNull) ;;
        estimation o tin tout
      else
        if negb (truthy (tokenInAmount o))
           && ONLY_ZEROS_test (tokenInAmount o)
           && negb (String.eqb (id tin) (id tout))
        then emit (SetTokenOutAmount "0")
        else ret tt
  | _, _ => ret tt
  end.

(** The effect on [tokenIn], [tokenOut], [tokenInAmount] (lines 323-328);
    it reads the memo cell of the render it belongs to. *)
Definition onInputsChanged (o : SwapOptions) (st : State) : Eff Event unit :=
  emit (SetTokenInAmountMemo (tokenInAmount o)) ;;
  if loadingTrigger o && negb (ONLY_ZEROS_test (tokenInAmountMemo st))
  then ret tt
  else getEstimate o.

(** The effect on [loadingTrigger] (lines 330-332). *)
Definition onLoadingTriggerChanged (o : SwapOptions) : Eff Event unit :=
  getEstimate o.

(** The [minAmountOut] the hook returns (lines 251-253). *)
Definition minAmountOut {numbers : Numbers} (o : SwapOptions) (st : State)
  : option MinAmount :=
  minAmountOut_of (slippageTolerance o) (tokenOutAmount st).

(** How a cycle of the estimator fails, with the value the [catch] callback
    receives: the promise rejects, or it resolves to nothing, or without an
    estimate or without a pool. *)
Definition failure (r : Completion (option StableView.StableEstimate))
  : option JsError :=
  match r with
  | Throw e => Some e
  | Normal None => Some TypeError
  | Normal (Some v) =>
      match truthy (StableView.estimate v), StableView.pool v with
      | true, Some _ => None
      | _, _ => Some EmptyStringThrown
      end
  end.

End Hook.
End UseStableSwap.

(** * The transaction outcome effect

    The effect on [txHash] is the same text in both hooks (lines 111-132 and
    300-321). *)

Module TxOutcome.
Section Effect.

(** An action of a transaction: [action['FunctionCall']?.method_name]. *)
Record FunctionCallAction : Type := { method_name : string }.
Record Action : Type := { FunctionCall : option FunctionCallAction }.
Record Transaction : Type := { actions : list Action }.

(** Modelled from the spec: [getURLInfo]
    ([components/layout/transactionTipPopUp]) is not among the sources; the
    navigation context gives the transaction hash, the path and the error
    code of the current entry. *)
Record URLInfo : Type := {
  txHash : string;
  pathname : string;
  errorType : option string
}.

(** [checkTransaction] of [services/swap], not among the sources: given by
    how its promise settles; the [transaction] of the result may be
    undefined. *)
Variable checkTransaction : string -> Completion (option Transaction).

Inductive Event : Type :=
| CheckTransaction (hash : string)
| SwapToast (hash : string)
| HistoryReplace (path : string).

Definition call_checkTransaction (hash : string)
  : Eff Event (option Transaction) :=
  ([CheckTransaction hash], checkTransaction hash).

(** [transaction?.actions[i]?.['FunctionCall']?.method_name] *)
Definition method_name_at (transaction : option Transaction) (i : nat)
  : option string :=
  match transaction with
  | None => None
  | Some t =>
      match nth_error (actions t) i with
      | None => None
      | Some a => option_map method_name (FunctionCall a)
      end
  end.

(** [m === name] for a possibly undefined [m]. *)
Definition is_method (m : option string) (name : string) : bool :=
  match m with
  | Some s => String.eqb s name
  | None => false
  end.

(** The first [then] callback (lines 114-124). *)
Definition isSwap (transaction : option Transaction) : bool :=
  is_method (method_name_at transaction 1) "ft_transfer_call"
  || is_method (method_name_at transaction 0) "ft_transfer_call"
  || is_method (method_name_at transaction 0) "swap"
  || is_method (method_name_at transaction 0) "near_withdraw".

(** [!errorType] *)
Definition no_errorType (u : URLInfo) : bool :=
  match errorType u with
  | None => true
  | Some s => negb (truthy s)
  end.

Local Open Scope eff_scope.

(** The effect (lines 111-132), run to the settlement of its chain. *)
Definition txHashEffect (u : URLInfo) : Eff Event unit :=
  if truthy (txHash u)
  then
    then_
      (then_ (call_checkTransaction (txHash u))
         (fun transaction => ret (isSwap transaction)))
      (fun isSwap =>
         (if isSwap
          then if no_errorType u then emit (SwapToast (txHash u)) else ret tt
          else ret tt) ;;
         emit (HistoryReplace (pathname u)))
  else ret tt.

(** Modelled from the spec: [history.replace(path)] replaces the current
    navigation entry by the bare path, which carries no transaction hash
    and no error code. *)
Definition navigate (u : URLInfo) (ev : Event) : URLInfo :=
  match ev with
  | HistoryReplace path =>
      {| txHash := ""; pathname := path; errorType := None |}
  | _ => u
  end.

Definition navigation_after (u : URLInfo) (evs : list Event) : URLInfo :=
  fold_left navigate evs u.

Definition toasts (evs : list Event) : list string :=
  flat_map (fun ev => match ev with SwapToast h => [h] | _ => [] end) evs.

Definition replaces (evs : list Event) : list string :=
  flat_map (fun ev => match ev with HistoryReplace p => [p] | _ => [] end)
    evs.

(** The classification as the specification words it: a method name of the
    set appears among the first two action entries. *)
Definition swap_method (m : option string) : bool :=
  is_method m "ft_transfer_call" || is_method m "swap"
  || is_method m "near_withdraw".

Definition claimed_isSwap (transaction : option Transaction) : bool :=
  swap_method (method_name_at transaction 0)
  || swap_method (method_name_at transaction 1).

End Effect.
End TxOutcome.

(** * Scenarios

    Concrete tokens, options, cells and estimators on which the hooks are
    evaluated below. *)

Module Scenario.

Definition usdt : TokenMetadata :=
  {| id := "usdt.tether-token.near"; symbol := "USDT"; decimals := 6 |}.
Definition usdc : TokenMetadata :=
  {| id := "usdc.token.near"; symbol := "USDC"; decimals := 6 |}.

Definition pool_a : Pool := {| pool_id := 1; fee := 30 |}.
Definition pool_b : Pool := {| pool_id := 2; fee := 5 |}.

(** Options of a render: tokens, amount, tolerance in percent, and the
    [loadingTrigger] of that render. *)
Definition options (tin tout : TokenMetadata) (amount : string)
  (tolerance : Q) (trigger : bool) : SwapOptions :=
  {| tokenIn := Some tin; tokenInAmount := amount; tokenOut := Some tout;
     slippageTolerance := tolerance; loadingData := false;
     loadingTrigger := trigger; loadingPause := false |}.

(** Route graphs and big numbers of the scenarios carry no data. *)
Definition leg (mode : PoolMode) (p : Pool)
  : View.EstimateSwapView unit unit :=
  {| View.status := mode; View.pool := p; View.allRoutes := tt;
     View.allNodeRoutes := tt; View.totalInputAmount := "1" |}.

Definition average_fee (_ _ : unit) (_ : string) : Q := 20.
Definition expected_output (_ : list (View.EstimateSwapView unit unit))
  (_ : string) : unit := tt.
Definition output_text (_ : unit) : string := "9.066".

(** An estimator that finds a two-leg smart route, one that finds a
    parallel route, one that finds nothing, one that rejects. *)
Definition finds_smart (_ : UseSwap.EstimateSwapArgs)
  : Completion (option (list (View.EstimateSwapView unit unit))) :=
  Normal (Some [leg SMART pool_a; leg SMART pool_b]).
Definition finds_parallel (_ : UseSwap.EstimateSwapArgs)
  : Completion (option (list (View.EstimateSwapView unit unit))) :=
  Normal (Some [leg PARALLEL pool_a]).
Definition finds_nothing (_ : UseSwap.EstimateSwapArgs)
  : Completion (option (list (View.EstimateSwapView unit unit))) :=
  Normal None.
Definition rejects (_ : UseSwap.EstimateSwapArgs)
  : Completion (option (list (View.EstimateSwapView unit unit))) :=
  Throw (Rejection "no pool").

(** The hook on these helpers. *)
Definition swap_getEstimate
  (estimator : UseSwap.EstimateSwapArgs ->
               Completion (option (list (View.EstimateSwapView unit unit))))
  (o : SwapOptions) : Eff (UseSwap.Event unit unit) unit :=
  UseSwap.getEstimate average_fee expected_output output_text estimator o.

(** Cells of [useSwap] showing an earlier quote. *)
Definition swap_quoted (shown : string) (trigger : bool)
  : UseSwap.State unit unit :=
  {| UseSwap.pool := Some pool_a; UseSwap.canSwap := Some true;
     UseSwap.tokenOutAmount := shown; UseSwap.swapError := ErrNull;
     UseSwap.swapsToDo := Some [leg PARALLEL pool_a];
     UseSwap.avgFee := 30; UseSwap.count := 0;
     UseSwap.loadingTriggerCell := trigger |}.

(** A stable estimator that uses neither callback and resolves to the given
    output, and one that rejects. *)
Definition stable_resolves (out : string)
  (_ : UseStableSwap.EstimateStableArgs)
  : list UseStableSwap.Callback
    * Completion (option StableView.StableEstimate) :=
  ([], Normal (Some {| StableView.estimate := out;
                       StableView.pool := Some pool_b;
                       StableView.dy := out |})).
Definition stable_rejects (_ : UseStableSwap.EstimateStableArgs)
  : list UseStableSwap.Callback
    * Completion (option StableView.StableEstimate) :=
  ([UseStableSwap.ViaSetLoadingTrigger false], Throw (Rejection "no pool")).

(** Cells of [useStableSwap] showing an earlier quote. *)
Definition stable_quoted (shown : string) (trigger : bool)
  : UseStableSwap.State :=
  {| UseStableSwap.pool := Some pool_b; UseStableSwap.canSwap := Some true;
     UseStableSwap.tokenOutAmount := shown;
     UseStableSwap.swapError := ErrNull;
     UseStableSwap.noFeeAmount := shown;
     UseStableSwap.tokenInAmountMemo := "5";
     UseStableSwap.loadingTriggerCell := trigger |}.

(** Transactions and navigation contexts. *)
Definition call (name : string) : TxOutcome.Action :=
  {| TxOutcome.FunctionCall := Some {| TxOutcome.method_name := name |} |}.
Definition transfer : TxOutcome.Action :=
  {| TxOutcome.FunctionCall := None |}.
Definition returned_from_wallet (err : option string) : TxOutcome.URLInfo :=
  {| TxOutcome.txHash := "9uZxS2"; TxOutcome.pathname := "/swap";
     TxOutcome.errorType := err |}.
Definition fetches (acts : list TxOutcome.Action) (_ : string)
  : Completion (option TxOutcome.Transaction) :=
  Normal (Some {| TxOutcome.actions := acts |}).

(** A stand-in for [utils/numbers]: the result of [percentLess] is the call
    itself, the percentage with the amount it is taken from. *)
#[export] Instance recorded_numbers : Numbers :=
  {| MinAmount := Q * string;
     percentLess := fun percent num => (percent, num) |}.

End Scenario.

(** * The guard of the estimation cycles *)

(** [tokenIn && tokenOut && tokenIn.id !== tokenOut.id], the condition of
    lines 137 and 259. *)
Definition distinct_tokens (o : SwapOptions) : bool :=
  match tokenIn o, tokenOut o with
  | Some tin, Some tout => negb (String.eqb (id tin) (id tout))
  | _, _ => false
  end.

(** * What the hooks return and submit *)

(** The derived fields of the object [useSwap] returns (lines 225-228);
    [None] is the undefined that [swapsToDo?.] gives on an undefined cell. *)
Module SwapReturn.
Section Derived.

Variables Routes NodeRoutes : Type.

Definition pools (st : UseSwap.State Routes NodeRoutes) : option (list Pool) :=
  option_map (map View.pool) (UseSwap.swapsToDo st).

Definition isParallelSwap (st : UseSwap.State Routes NodeRoutes)
  : option bool :=
  option_map (forallb (fun e => PoolMode_eqb (View.status e) PARALLEL))
    (UseSwap.swapsToDo st).

Definition isSmartRouteV2Swap (st : UseSwap.State Routes NodeRoutes)
  : option bool :=
  option_map (forallb (fun e => negb (PoolMode_eqb (View.status e) SMART)))
    (UseSwap.swapsToDo st).

End Derived.

Arguments pools {Routes NodeRoutes} st.
Arguments isParallelSwap {Routes NodeRoutes} st.
Arguments isSmartRouteV2Swap {Routes NodeRoutes} st.
End SwapReturn.

(** [makeSwap] of [useSwap] (lines 206-215).  The [swap] of
    [services/swap] is not among the sources: a parameter, given by how its
    promise settles. *)
Module SwapSubmit.
Section Submit.

Variables Routes NodeRoutes : Type.

Record SwapArgs : Type := {
  arg_slippageTolerance : Q;
  arg_swapsToDo : option (list (View.EstimateSwapView Routes NodeRoutes));
  arg_tokenIn : option TokenMetadata;
  arg_amountIn : string;
  arg_tokenOut : option TokenMetadata;
  arg_useNearBalance : bool
}.

Variable swap : SwapArgs -> Completion unit.

(** A submission issues the call of [swap] and setter calls of the hook. *)
Inductive Event : Type :=
| CallSwap (a : SwapArgs)
| Cell (ev : UseSwap.Event Routes NodeRoutes).

Definition swap_args (o : SwapOptions) (st : UseSwap.State Routes NodeRoutes)
  (useNearBalance : bool) : SwapArgs :=
  {| arg_slippageTolerance := slippageTolerance o;
     arg_swapsToDo := UseSwap.swapsToDo st;
     arg_tokenIn := tokenIn o;
     arg_amountIn := tokenInAmount o;
     arg_tokenOut := tokenOut o;
     arg_useNearBalance := useNearBalance |}.

(** [swap({...}).catch(setSwapError)] *)
Definition makeSwap (o : SwapOptions) (st : UseSwap.State Routes NodeRoutes)
  (useNearBalance : bool) : Eff Event unit :=
  catch_
    ([CallSwap (swap_args o st useNearBalance)],
     swap (swap_args o st useNearBalance))
    (fun err => emit (Cell (UseSwap.SetSwapError (ErrCaught err)))).

(** The setter calls among the events of a submission. *)
Definition cell_events (evs : list Event)
  : list (UseSwap.Event Routes NodeRoutes) :=
  flat_map (fun ev => match ev with Cell e => [e] | CallSwap _ => [] end) evs.

(** The arguments of the calls of [swap] among the events. *)
Definition submissions (evs : list Event) : list SwapArgs :=
  flat_map (fun ev => match ev with CallSwap a => [a] | Cell _ => [] end) evs.

End Submit.

Arguments arg_slippageTolerance {Routes NodeRoutes} s.
Arguments arg_swapsToDo {Routes NodeRoutes} s.
Arguments arg_tokenIn {Routes NodeRoutes} s.
Arguments arg_amountIn {Routes NodeRoutes} s.
Arguments arg_tokenOut {Routes NodeRoutes} s.
Arguments arg_useNearBalance {Routes NodeRoutes} s.
Arguments CallSwap {Routes NodeRoutes} a.
Arguments Cell {Routes NodeRoutes} ev.
Arguments swap_args {Routes NodeRoutes} o st useNearBalance.
Arguments makeSwap {Routes NodeRoutes} swap o st useNearBalance.
Arguments cell_events {Routes NodeRoutes} evs.
Arguments submissions {Routes NodeRoutes} evs.
End SwapSubmit.

(** [makeSwap] of [useStableSwap] (lines 334-343).  The [swap] of
    [services/stable-swap] is not among the sources: a parameter, given by
    how its promise settles. *)
Module StableSubmit.
Section Submit.

Context {numbers : Numbers}.

Record StableSwapArgs : Type := {
  arg_pool : option Pool;
  arg_tokenIn : option TokenMetadata;
  arg_amountIn : string;
  arg_tokenOut : option TokenMetadata;
  arg_minAmountOut : option MinAmount;
  arg_useNearBalance : bool
}.

Variable stableSwap : StableSwapArgs -> Completion unit.

Inductive Event : Type :=
| CallStableSwap (a : StableSwapArgs)
| Cell (ev : UseStableSwap.Event).

Definition swap_args (o : SwapOptions) (st : UseStableSwap.State)
  (useNearBalance : bool) : StableSwapArgs :=
  {| arg_pool := UseStableSwap.pool st;
     arg_tokenIn := tokenIn o;
     arg_amountIn := tokenInAmount o;
     arg_tokenOut := tokenOut o;
     arg_minAmountOut := UseStableSwap.minAmountOut o st;
     arg_useNearBalance := useNearBalance |}.

(** [stableSwap({...}).catch(setSwapError)] *)
Definition makeSwap (o : SwapOptions) (st : UseStableSwap.State)
  (useNearBalance : bool) : Eff Event unit :=
  catch_
    ([CallStableSwap (swap_args o st useNearBalance)],
     stableSwap (swap_args o st useNearBalance))
    (fun err => emit (Cell (UseStableSwap.SetSwapError (ErrCaught err)))).

Definition cell_events (evs : list Event) : list UseStableSwap.Event :=
  flat_map
    (fun ev => match ev with Cell e => [e] | CallStableSwap _ => [] end) evs.

Definition submissions (evs : list Event) : list StableSwapArgs :=
  flat_map
    (fun ev => match ev with CallStableSwap a => [a] | Cell _ => [] end) evs.

End Submit.
End StableSubmit.

(** * The popular tokens of the token selector

    The second source file, the component [CommonBasses]: the filter of its
    first statement (lines 16-38). *)
Module CommonBasses.

Definition COMMON_BASSES : list string :=
  ["wNEAR"; "REF"; "SKYWARD"; "OCT"; "STNEAR"; "USDT"; "USDC"; "AURORA";
   "ETH"; "DAI"; "WBTC"].

(** [Array.prototype.indexOf] on strings: the first index of an element
    strictly equal to [x], or -1. *)
Fixpoint indexOf_from (l : list string) (x : string) (i : Z) : Z :=
  match l with
  | [] => (-1)%Z
  | y :: rest => if String.eqb y x then i else indexOf_from rest x (i + 1)%Z
  end.

Definition indexOf (l : list string) (x : string) : Z := indexOf_from l x 0%Z.

(** [COMMON_BASSES.indexOf(item?.symbol) > -1]; an undefined item has an
    undefined symbol, which is no element of the array. *)
Definition is_common (item : option TokenMetadata) : bool :=
  match item with
  | Some t => (-1 <? indexOf COMMON_BASSES (symbol t))%Z
  | None => false
  end.

(** [tokens.filter((item) => ...)] *)
Definition commonBassesTokens (tokens : list (option TokenMetadata))
  : list (option TokenMetadata) :=
  filter is_common tokens.

End CommonBasses.

(** * Further scenarios *)

Module Cases.

Definition token (name sym : string) : TokenMetadata :=
  {| id := name; symbol := sym; decimals := 18 |}.

(** A submission service that accepts, and one that rejects. *)
Definition accepts {A : Type} (_ : A) : Completion unit := Normal tt.
Definition refuses {A : Type} (_ : A) : Completion unit :=
  Throw (Rejection "user rejected").

(** Options without tokens. *)
Definition no_tokens (amount : string) (trigger : bool) : SwapOptions :=
  {| tokenIn := None; tokenInAmount := amount; tokenOut := None;
     slippageTolerance := 0.5; loadingData := false;
     loadingTrigger := trigger; loadingPause := false |}.

End Cases.

(** * Facts about the values *)

Lemma truthy_false_iff (s : string) : truthy s = false <-> s = "".
Proof.
  destruct s; simpl; split; intro H; try reflexivity; discriminate H.
Qed.

Lemma truthy_true_iff (s : string) : truthy s = true <-> s <> "".
Proof.
  destruct s; simpl; split; intro H; try reflexivity;
    try discriminate; try congruence.
Qed.

Lemma skip_zeros_cons (c : ascii) (rest : string) :
  skip_zeros (String c rest)
  = if Ascii.eqb c "0"%char then skip_zeros rest else String c rest.
Proof.
  destruct c as [[] [] [] [] [] [] [] []]; reflexivity.
Qed.

Lemma skip_point_cons (c : ascii) (rest : string) :
  skip_point (String c rest)
  = if Ascii.eqb c "."%char then rest else String c rest.
Proof.
  destruct c as [[] [] [] [] [] [] [] []]; reflexivity.
Qed.

Lemma skip_zeros_prefix (s : string) :
  exists n, s = zeros n ++ skip_zeros s.
Proof.
  induction s as [|c rest [n IH]].
  - exists O. reflexivity.
  - rewrite skip_zeros_cons. destruct (Ascii.eqb c "0"%char) eqn:E.
    + apply Ascii.eqb_eq in E. subst c. exists (S n). simpl. now rewrite <- IH.
    + exists O. reflexivity.
Qed.

Lemma skip_zeros_of_zeros (n : nat) (s : string) :
  skip_zeros (zeros n ++ s) = skip_zeros s.
Proof.
  induction n as [|n IH]; simpl; [reflexivity | exact IH].
Qed.

Lemma append_empty_r (s : string) : s ++ "" = s.
Proof.
  induction s as [|c rest IH]; simpl; [reflexivity | now rewrite IH].
Qed.

Lemma skip_zeros_zeros (n : nat) : skip_zeros (zeros n) = "".
Proof.
  rewrite <- (append_empty_r (zeros n)). apply skip_zeros_of_zeros.
Qed.

(** The test decides the language of the regular expression. *)
Lemma ONLY_ZEROS_test_spec (s : string) :
  ONLY_ZEROS_test s = true <-> in_ONLY_ZEROS s.
Proof.
  unfold ONLY_ZEROS_test, in_ONLY_ZEROS. split.
  - intro H. apply negb_true_iff, truthy_false_iff in H.
    destruct (skip_zeros_prefix s) as [n Hn].
    destruct (skip_zeros s) as [|c rest] eqn:Es.
    + exists n, O. left. exact Hn.
    + rewrite skip_point_cons in H.
      destruct (Ascii.eqb c "."%char) eqn:Ec.
      * apply Ascii.eqb_eq in Ec. subst c.
        destruct (skip_zeros_prefix rest) as [m Hm].
        rewrite H, append_empty_r in Hm. subst rest.
        exists n, m. right. exact Hn.
      * rewrite <- Es in H. rewrite <- Es in Hn.
        destruct (skip_zeros_prefix (skip_zeros s)) as [m Hm].
        rewrite H, append_empty_r in Hm.
        exists n, m. left. now rewrite <- Hm.
  - intros (n & m & [-> | ->]).
    + now rewrite skip_zeros_of_zeros, skip_zeros_zeros.
    + rewrite skip_zeros_of_zeros. simpl. now rewrite skip_zeros_zeros.
Qed.

Lemma all_zero_digits_zeros (s : string) :
  all_zero_digits s = true -> exists n, s = zeros n.
Proof.
  induction s as [|c rest IH]; simpl; intro H.
  - exists O. reflexivity.
  - apply andb_true_iff in H. destruct H as [Hc Hr].
    apply Ascii.eqb_eq in Hc. subst c.
    destruct (IH Hr) as [n ->]. exists (S n). reflexivity.
Qed.

(** A blank amount and an amount of zeros are both matched. *)
Lemma blank_or_zeros_match (s : string) :
  s = "" \/ all_zero_digits s = true -> ONLY_ZEROS_test s = true.
Proof.
  intros [-> | H]; [reflexivity |].
  destruct (all_zero_digits_zeros s H) as [n ->].
  apply ONLY_ZEROS_test_spec. exists n, O. left.
  simpl. now rewrite append_empty_r.
Qed.

Lemma read_decimal_nonneg (s : string) :
  forall mant scale seen x,
    read_decimal s mant scale seen = Num x -> 0 <= x.
Proof.
  induction s as [|c rest IH]; simpl; intros mant scale seen x H.
  - destruct seen; [| discriminate H]. injection H as <-.
    unfold Qle. simpl. lia.
  - destruct (Ascii.eqb c "."%char).
    + destruct scale; [discriminate H | eapply IH; exact H].
    + destruct (digit_of c); [eapply IH; exact H | discriminate H].
Qed.

Lemma decimal_value_nonneg (s : string) (x : Q) :
  decimal_value s = Num x -> 0 <= x.
Proof. apply read_decimal_nonneg. Qed.

(** * Facts about [useSwap] and [useStableSwap] *)

Section Sessions.

Context {Routes NodeRoutes BigNumber : Type} {numbers : Numbers}.
Variable getAverageFeeForRoutes : Routes -> NodeRoutes -> string -> Q.
Variable getExpectedOutputFromActions :
  list (View.EstimateSwapView Routes NodeRoutes) -> string -> BigNumber.
Variable toString : BigNumber -> string.
Variable estimateSwap :
  UseSwap.EstimateSwapArgs ->
  Completion (option (list (View.EstimateSwapView Routes NodeRoutes))).
Variable estimateStableSwap :
  UseStableSwap.EstimateStableArgs ->
  list UseStableSwap.Callback
  * Completion (option StableView.StableEstimate).

Local Abbreviation swap_getEstimate :=
  (UseSwap.getEstimate getAverageFeeForRoutes getExpectedOutputFromActions
     toString estimateSwap).
Local Abbreviation swap_estimation :=
  (UseSwap.estimation getAverageFeeForRoutes getExpectedOutputFromActions
     toString estimateSwap).
Local Abbreviation stable_getEstimate :=
  (UseStableSwap.getEstimate estimateStableSwap).
Local Abbreviation stable_estimation :=
  (UseStableSwap.estimation estimateStableSwap).

(** ** The shape of a cycle of [useSwap] *)

(** On two distinct tokens and an amount that is neither blank nor zeros the
    cycle is the two resets and the promise chain. *)
Lemma swap_cycle_estimates (o : SwapOptions) (tin tout : TokenMetadata) :
  tokenIn o = Some tin -> tokenOut o = Some tout ->
  String.eqb (id tin) (id tout) = false ->
  ONLY_ZEROS_test (tokenInAmount o) = false ->
  swap_getEstimate o
  = (UseSwap.SetCanSwap false :: UseSwap.SetSwapError ErrNull
       :: events (swap_estimation o tin tout),
     completion (swap_estimation o tin tout)).
Proof.
  intros Hin Hout Hid Hz. unfold UseSwap.getEstimate.
  rewrite Hin, Hout, Hid, Hz.
  assert (Ht : truthy (tokenInAmount o) = true).
  { destruct (tokenInAmount o); [discriminate Hz | reflexivity]. }
  rewrite Ht. simpl.
  destruct (swap_estimation o tin tout) as [l r]. reflexivity.
Qed.

(** In every other case the estimator is not reached. *)
Lemma swap_cycle_called (o : SwapOptions) :
  UseSwap.calls_estimator (events (swap_getEstimate o)) = true ->
  exists tin tout,
    tokenIn o = Some tin /\ tokenOut o = Some tout
    /\ String.eqb (id tin) (id tout) = false
    /\ ONLY_ZEROS_test (tokenInAmount o) = false.
Proof.
  unfold UseSwap.getEstimate.
  destruct (tokenIn o) as [tin|], (tokenOut o) as [tout|]; simpl;
    try discriminate.
  destruct (String.eqb (id tin) (id tout)) eqn:Eid; simpl.
  - rewrite andb_false_r. simpl. discriminate.
  - destruct (ONLY_ZEROS_test (tokenInAmount o)) eqn:Ez.
    + rewrite orb_true_r. simpl. discriminate.
    + intros _. exists tin, tout. repeat split; auto.
Qed.

(** The chain after a failure of the estimator: possibly [setCanSwap(true)]
    before the throw, then the [catch] callback, then [finally]. *)
Lemma swap_estimation_failure (o : SwapOptions) (tin tout : TokenMetadata)
  (err : JsError) :
  UseSwap.failure (estimateSwap (UseSwap.estimate_args o tin tout))
  = Some err ->
  exists pre,
    (pre = [] \/ pre = [UseSwap.SetCanSwap true])
    /\ swap_estimation o tin tout
       = (UseSwap.CallEstimateSwap (UseSwap.estimate_args o tin tout)
            :: pre ++ [UseSwap.SetCanSwap false;
                       UseSwap.SetTokenOutAmount "";
                       UseSwap.SetSwapError (ErrCaught err);
                       UseSwap.SetLoadingTrigger false],
          Normal tt).
Proof.
  unfold UseSwap.estimation, UseSwap.call_estimateSwap, then_, bind.
  destruct (estimateSwap (UseSwap.estimate_args o tin tout))
    as [[[|first rest]|]|e]; simpl; intro H; try discriminate H;
    injection H as <-.
  - destruct (truthy (tokenInAmount o)
              && negb (ONLY_ZEROS_test (tokenInAmount o))); simpl.
    + exists [UseSwap.SetCanSwap true]. split; [now right | reflexivity].
    + exists []. split; [now left | reflexivity].
  - exists []. split; [now left | reflexivity].
  - exists []. split; [now left | reflexivity].
Qed.

(** The chain after the estimator resolved to a list with a first leg. *)
Lemma swap_estimation_success (o : SwapOptions) (tin tout : TokenMetadata)
  first rest :
  ONLY_ZEROS_test (tokenInAmount o) = false ->
  estimateSwap (UseSwap.estimate_args o tin tout)
  = Normal (Some (first :: rest)) ->
  swap_estimation o tin tout
  = (UseSwap.CallEstimateSwap (UseSwap.estimate_args o tin tout)
       :: UseSwap.SetCanSwap true
       :: UseSwap.SetAvgFee
            (UseSwap.averageFee getAverageFeeForRoutes first (first :: rest))
       :: (if loadingTrigger o then []
           else [UseSwap.SetTokenOutAmount
                   (toString
                      (getExpectedOutputFromActions (first :: rest)
                         (id tout)));
                 UseSwap.SetSwapsToDo (first :: rest)])
       ++ [UseSwap.SetPool (View.pool first);
           UseSwap.SetLoadingTrigger false],
     Normal tt).
Proof.
  intros Hz E.
  assert (Ht : truthy (tokenInAmount o) = true).
  { destruct (tokenInAmount o); [discriminate Hz | reflexivity]. }
  unfold UseSwap.estimation, UseSwap.call_estimateSwap, then_, bind.
  rewrite E. simpl. rewrite Ht, Hz. simpl.
  destruct (loadingTrigger o); reflexivity.
Qed.

(** ** The shape of a cycle of [useStableSwap] *)

(** On two distinct tokens the cycle is the two resets and the promise
    chain, whatever the amount. *)
Lemma stable_cycle_estimates (o : SwapOptions) (tin tout : TokenMetadata) :
  tokenIn o = Some tin -> tokenOut o = Some tout ->
  String.eqb (id tin) (id tout) = false ->
  stable_getEstimate o
  = (UseStableSwap.SetCanSwap false :: UseStableSwap.SetSwapError ErrNull
       :: events (stable_estimation o tin tout),
     completion (stable_estimation o tin tout)).
Proof.
  intros Hin Hout Hid. unfold UseStableSwap.getEstimate.
  rewrite Hin, Hout, Hid. simpl.
  destruct (stable_estimation o tin tout) as [l r]. reflexivity.
Qed.

Lemma stable_cycle_called (o : SwapOptions) :
  UseStableSwap.calls_estimator (events (stable_getEstimate o)) = true ->
  exists tin tout,
    tokenIn o = Some tin /\ tokenOut o = Some tout
    /\ String.eqb (id tin) (id tout) = false.
Proof.
  unfold UseStableSwap.getEstimate.
  destruct (tokenIn o) as [tin|], (tokenOut o) as [tout|]; simpl;
    try discriminate.
  destruct (String.eqb (id tin) (id tout)) eqn:Eid; simpl.
  - rewrite andb_false_r. simpl. discriminate.
  - intros _. exists tin, tout. repeat split; auto.
Qed.

Local Abbreviation stable_callbacks :=
  (UseStableSwap.callback_events estimateStableSwap).

Lemma stable_estimation_failure (o : SwapOptions) (tin tout : TokenMetadata)
  (err : JsError) :
  UseStableSwap.failure
    (snd (estimateStableSwap (UseStableSwap.estimate_args o tin tout)))
  = Some err ->
  stable_estimation o tin tout
  = (UseStableSwap.CallEstimateStableSwap
       (UseStableSwap.estimate_args o tin tout)
       :: stable_callbacks (UseStableSwap.estimate_args o tin tout)
       ++ [UseStableSwap.SetCanSwap false;
           UseStableSwap.SetTokenOutAmount "";
           UseStableSwap.SetNoFeeAmount "";
           UseStableSwap.SetSwapError (ErrCaught err)],
     Normal tt).
Proof.
  unfold UseStableSwap.estimation, UseStableSwap.call_estimateStableSwap,
    UseStableSwap.callback_events, then_, bind, catch_.
  destruct (estimateStableSwap (UseStableSwap.estimate_args o tin tout))
    as [cbs [[r|]|e]]; simpl; intro H.
  - destruct (truthy (StableView.estimate r)), (StableView.pool r);
      simpl in *; try discriminate H; injection H as <-;
      rewrite ?app_nil_r; reflexivity.
  - injection H as <-. rewrite ?app_nil_r. reflexivity.
  - injection H as <-. rewrite ?app_nil_r. reflexivity.
Qed.

Lemma stable_estimation_success (o : SwapOptions) (tin tout : TokenMetadata)
  (r : StableView.StableEstimate) (pl : Pool) :
  snd (estimateStableSwap (UseStableSwap.estimate_args o tin tout))
  = Normal (Some r) ->
  truthy (StableView.estimate r) = true ->
  StableView.pool r = Some pl ->
  stable_estimation o tin tout
  = (UseStableSwap.CallEstimateStableSwap
       (UseStableSwap.estimate_args o tin tout)
       :: stable_callbacks (UseStableSwap.estimate_args o tin tout)
       ++ (if truthy (tokenInAmount o)
              && negb (ONLY_ZEROS_test (tokenInAmount o))
           then UseStableSwap.SetCanSwap true
                  :: (if loadingTrigger o then []
                      else [UseStableSwap.SetNoFeeAmount (StableView.dy r);
                            UseStableSwap.SetTokenOutAmount
                              (StableView.estimate r)])
                  ++ [UseStableSwap.SetPool pl]
           else []),
     Normal tt).
Proof.
  intros E He Hp.
  unfold UseStableSwap.estimation, UseStableSwap.call_estimateStableSwap,
    UseStableSwap.callback_events, then_, bind, catch_.
  destruct (estimateStableSwap (UseStableSwap.estimate_args o tin tout))
    as [cbs c]. simpl in E. subst c. simpl. rewrite He, Hp.
  destruct (truthy (tokenInAmount o)
            && negb (ONLY_ZEROS_test (tokenInAmount o))); simpl;
    [destruct (loadingTrigger o) |]; simpl; rewrite ?app_nil_r;
    reflexivity.
Qed.

(** ** Cells under the events of a cycle *)

Lemma stable_run_app (st : UseStableSwap.State) l1 l2 :
  UseStableSwap.run st (l1 ++ l2)
  = UseStableSwap.run (UseStableSwap.run st l1) l2.
Proof. apply fold_left_app. Qed.

(** The estimator's callbacks reach [canSwap] and [loadingTrigger] only. *)
Lemma stable_callbacks_frame (cbs : list UseStableSwap.Callback)
  (st : UseStableSwap.State) :
  let st' := UseStableSwap.run st (map UseStableSwap.event_of_callback cbs) in
  UseStableSwap.pool st' = UseStableSwap.pool st
  /\ UseStableSwap.tokenOutAmount st' = UseStableSwap.tokenOutAmount st
  /\ UseStableSwap.swapError st' = UseStableSwap.swapError st
  /\ UseStableSwap.noFeeAmount st' = UseStableSwap.noFeeAmount st
  /\ UseStableSwap.tokenInAmountMemo st' = UseStableSwap.tokenInAmountMemo st.
Proof.
  revert st. induction cbs as [|c cbs IH]; intro st; simpl.
  - repeat split.
  - specialize (IH (UseStableSwap.apply st
                      (UseStableSwap.event_of_callback c))).
    simpl in IH. destruct IH as (H1 & H2 & H3 & H4 & H5).
    unfold UseStableSwap.run in *.
    rewrite H1, H2, H3, H4, H5. destruct c; repeat split.
Qed.

(** The chain of [useSwap] ends with the [finally] callback. *)
Lemma swap_estimation_finally (o : SwapOptions) (tin tout : TokenMetadata) :
  exists l,
    events (swap_estimation o tin tout)
    = (l ++ [UseSwap.SetLoadingTrigger false])%list.
Proof.
  unfold UseSwap.estimation, finally_.
  destruct (catch_ _ _) as [l r]. exists l. reflexivity.
Qed.

(** After the estimator's callbacks the flag depends on the flag alone. *)
Lemma stable_callbacks_flag (cbs : list UseStableSwap.Callback) :
  forall st1 st2 : UseStableSwap.State,
    UseStableSwap.loadingTriggerCell st1
    = UseStableSwap.loadingTriggerCell st2 ->
    UseStableSwap.loadingTriggerCell
      (UseStableSwap.run st1 (map UseStableSwap.event_of_callback cbs))
    = UseStableSwap.loadingTriggerCell
        (UseStableSwap.run st2 (map UseStableSwap.event_of_callback cbs)).
Proof.
  induction cbs as [|c cbs IH]; intros st1 st2 H; simpl.
  - exact H.
  - apply IH. destruct c; simpl; [reflexivity | exact H].
Qed.

(** With a blank or all-zero amount [useSwap] answers '0' itself and does
    not reach the estimator (lines 139-142). *)
Lemma swap_zero_amount_short_circuit (o : SwapOptions)
  (tin tout : TokenMetadata) (st : UseSwap.State Routes NodeRoutes) :
  tokenIn o = Some tin -> tokenOut o = Some tout ->
  id tin <> id tout ->
  tokenInAmount o = "" \/ all_zero_digits (tokenInAmount o) = true ->
  events (swap_getEstimate o)
  = [UseSwap.SetCanSwap false; UseSwap.SetSwapError ErrNull;
     UseSwap.SetTokenOutAmount "0"]
  /\ UseSwap.calls_estimator (events (swap_getEstimate o)) = false
  /\ UseSwap.tokenOutAmount (UseSwap.run st (events (swap_getEstimate o)))
     = "0".
Proof.
  intros Hin Hout Hid Hz. apply blank_or_zeros_match in Hz.
  apply String.eqb_neq in Hid.
  assert (E : events (swap_getEstimate o)
              = [UseSwap.SetCanSwap false; UseSwap.SetSwapError ErrNull;
                 UseSwap.SetTokenOutAmount "0"]).
  { unfold UseSwap.getEstimate. rewrite Hin, Hout, Hid, Hz.
    rewrite orb_true_r. reflexivity. }
  rewrite E. repeat split.
Qed.

(** [useStableSwap] reaches its estimator on every amount. *)
Lemma stable_distinct_tokens_call_estimator (o : SwapOptions)
  (tin tout : TokenMetadata) :
  tokenIn o = Some tin -> tokenOut o = Some tout ->
  id tin <> id tout ->
  UseStableSwap.calls_estimator (events (stable_getEstimate o)) = true.
Proof.
  intros Hin Hout Hid. apply String.eqb_neq in Hid.
  rewrite (stable_cycle_estimates o tin tout Hin Hout Hid).
  unfold UseStableSwap.estimation, UseStableSwap.call_estimateStableSwap,
    then_, bind, catch_.
  destruct (snd (estimateStableSwap _)) as [v | e]; simpl.
  - destruct (UseStableSwap.onEstimate o v) as [l [u | e]]; simpl;
      reflexivity.
  - reflexivity.
Qed.

(** ** The claims on the estimation cycle *)

(** C8. Whenever [tokenIn.id] equals [tokenOut.id], a cycle of either hook,
    on every input amount, issues [setCanSwap(false)] and nothing else: the
    estimator is not called, [canSwap] is never set to true, and [canSwap]
    is false afterwards. *)
Theorem C8_same_token_leaves_canSwap_false :
  forall (o : SwapOptions) (tin tout : TokenMetadata),
    tokenIn o = Some tin -> tokenOut o = Some tout -> id tin = id tout ->
    (forall st : UseSwap.State Routes NodeRoutes,
        UseSwap.calls_estimator (events (swap_getEstimate o)) = false
        /\ ~ In (UseSwap.SetCanSwap true) (events (swap_getEstimate o))
        /\ UseSwap.canSwap (UseSwap.run st (events (swap_getEstimate o)))
           = Some false)
    /\ (forall st : UseStableSwap.State,
           UseStableSwap.calls_estimator (events (stable_getEstimate o))
           = false
           /\ ~ In (UseStableSwap.SetCanSwap true)
                (events (stable_getEstimate o))
           /\ UseStableSwap.canSwap
                (UseStableSwap.run st (events (stable_getEstimate o)))
              = Some false).
Proof.
  intros o tin tout Hin Hout Hid.
  assert (Hsame : String.eqb (id tin) (id tout) = true)
    by (now apply String.eqb_eq).
  split; intro st.
  - unfold UseSwap.getEstimate. rewrite Hin, Hout, Hsame, andb_false_r.
    simpl. repeat split. intros [H | []]. discriminate H.
  - unfold UseStableSwap.getEstimate.
    rewrite Hin, Hout, Hsame, andb_false_r.
    simpl. repeat split. intros [H | []]. discriminate H.
Qed.

(** C4. A cycle whose estimation fails (the estimator's promise rejects, or
    resolves to no estimates) ends with [canSwap] false, the visible
    [tokenOutAmount] the empty string and the caught value in [swapError];
    the promise chain of the cycle settles fulfilled, so nothing is thrown
    on. *)
Theorem C4_failure_is_caught_and_recorded :
  (forall (o : SwapOptions) (tin tout : TokenMetadata) (err : JsError)
          (st : UseSwap.State Routes NodeRoutes),
      tokenIn o = Some tin -> tokenOut o = Some tout ->
      UseSwap.calls_estimator (events (swap_getEstimate o)) = true ->
      UseSwap.failure (estimateSwap (UseSwap.estimate_args o tin tout))
      = Some err ->
      UseSwap.canSwap (UseSwap.run st (events (swap_getEstimate o)))
      = Some false
      /\ UseSwap.tokenOutAmount
           (UseSwap.run st (events (swap_getEstimate o))) = ""
      /\ UseSwap.swapError (UseSwap.run st (events (swap_getEstimate o)))
         = ErrCaught err
      /\ completion (swap_getEstimate o) = Normal tt)
  /\ (forall (o : SwapOptions) (tin tout : TokenMetadata) (err : JsError)
             (st : UseStableSwap.State),
         tokenIn o = Some tin -> tokenOut o = Some tout ->
         UseStableSwap.calls_estimator (events (stable_getEstimate o))
         = true ->
         UseStableSwap.failure
           (snd (estimateStableSwap
                   (UseStableSwap.estimate_args o tin tout)))
         = Some err ->
         UseStableSwap.canSwap
           (UseStableSwap.run st (events (stable_getEstimate o)))
         = Some false
         /\ UseStableSwap.tokenOutAmount
              (UseStableSwap.run st (events (stable_getEstimate o))) = ""
         /\ UseStableSwap.swapError
              (UseStableSwap.run st (events (stable_getEstimate o)))
            = ErrCaught err
         /\ completion (stable_getEstimate o) = Normal tt).
Proof.
  split; intros o tin tout err st Hin Hout Hcall Hfail.
  - destruct (swap_cycle_called o Hcall)
      as (tin' & tout' & Hin' & Hout' & Hid & Hz).
    assert (tin' = tin) by congruence. assert (tout' = tout) by congruence.
    subst tin' tout'.
    rewrite (swap_cycle_estimates o tin tout Hin Hout Hid Hz).
    destruct (swap_estimation_failure o tin tout err Hfail)
      as (pre & Hpre & ->).
    unfold events, completion, UseSwap.run. simpl.
    rewrite fold_left_app. simpl. repeat split.
  - destruct (stable_cycle_called o Hcall)
      as (tin' & tout' & Hin' & Hout' & Hid).
    assert (tin' = tin) by congruence. assert (tout' = tout) by congruence.
    subst tin' tout'.
    rewrite (stable_cycle_estimates o tin tout Hin Hout Hid).
    rewrite (stable_estimation_failure o tin tout err Hfail).
    unfold events, completion, UseStableSwap.run. simpl.
    rewrite fold_left_app. simpl. repeat split.
Qed.

(** X14. A cycle of [useSwap] that reaches the estimator ends, on success
    and on failure alike, with the [finally] callback, which clears
    [loadingTrigger]; the next render then sets the refresh timer unless the
    refresh is paused.  [useStableSwap] makes no call of [setLoadingTrigger]
    of its own: it hands the setter to the estimator, and after its cycle
    the flag is what the estimator's calls alone would have left. *)
Theorem cycle_clears_loadingTrigger_in_finally :
  (forall (o : SwapOptions) (st : UseSwap.State Routes NodeRoutes),
      UseSwap.calls_estimator (events (swap_getEstimate o)) = true ->
      UseSwap.loadingTriggerCell
        (UseSwap.run st (events (swap_getEstimate o))) = false
      /\ (forall next : SwapOptions,
             loadingTrigger next
             = UseSwap.loadingTriggerCell
                 (UseSwap.run st (events (swap_getEstimate o))) ->
             UseSwap.timer_armed next = negb (loadingPause next)))
  /\ (forall (o : SwapOptions) (tin tout : TokenMetadata)
             (st : UseStableSwap.State),
         tokenIn o = Some tin -> tokenOut o = Some tout ->
         UseStableSwap.calls_estimator (events (stable_getEstimate o))
         = true ->
         UseStableSwap.loadingTriggerCell
           (UseStableSwap.run st (events (stable_getEstimate o)))
         = UseStableSwap.loadingTriggerCell
             (UseStableSwap.run st
                (stable_callbacks
                   (UseStableSwap.estimate_args o tin tout)))).
Proof.
  split.
  - intros o st Hcall.
    destruct (swap_cycle_called o Hcall)
      as (tin & tout & Hin & Hout & Hid & Hz).
    rewrite (swap_cycle_estimates o tin tout Hin Hout Hid Hz).
    destruct (swap_estimation_finally o tin tout) as [l ->].
    assert (E : UseSwap.loadingTriggerCell
                  (UseSwap.run st
                     (events
                        (UseSwap.SetCanSwap false
                           :: UseSwap.SetSwapError ErrNull
                           :: (l ++ [UseSwap.SetLoadingTrigger false])%list,
                         completion (swap_estimation o tin tout))))
                = false).
    { unfold events, UseSwap.run. simpl. rewrite fold_left_app.
      reflexivity. }
    split; [exact E |].
    intros next Hnext. unfold UseSwap.timer_armed.
    rewrite Hnext, E. reflexivity.
  - intros o tin tout st Hin Hout Hcall.
    destruct (stable_cycle_called o Hcall)
      as (tin' & tout' & Hin' & Hout' & Hid).
    assert (tin' = tin) by congruence. assert (tout' = tout) by congruence.
    subst tin' tout'.
    rewrite (stable_cycle_estimates o tin tout Hin Hout Hid).
    set (a := UseStableSwap.estimate_args o tin tout).
    assert (Hshape : exists tail,
               events (stable_estimation o tin tout)
               = (UseStableSwap.CallEstimateStableSwap a
                    :: stable_callbacks a ++ tail)%list
               /\ forall s : UseStableSwap.State,
                    UseStableSwap.loadingTriggerCell
                      (UseStableSwap.run s tail)
                    = UseStableSwap.loadingTriggerCell s).
    { destruct (UseStableSwap.failure (snd (estimateStableSwap a)))
        as [err|] eqn:Ef.
      - rewrite (stable_estimation_failure o tin tout err Ef).
        eexists. split; [reflexivity | intro s; reflexivity].
      - unfold UseStableSwap.failure in Ef.
        destruct (snd (estimateStableSwap a)) as [[r|]|e] eqn:Er;
          try discriminate Ef.
        destruct (truthy (StableView.estimate r)) eqn:He;
          try discriminate Ef.
        destruct (StableView.pool r) as [pl|] eqn:Hp; try discriminate Ef.
        rewrite (stable_estimation_success o tin tout r pl Er He Hp).
        eexists. split; [reflexivity |]. intro s.
        destruct (truthy (tokenInAmount o)
                  && negb (ONLY_ZEROS_test (tokenInAmount o)));
          [destruct (loadingTrigger o) |]; reflexivity. }
    destruct Hshape as (tail & -> & Htail).
    unfold events. simpl.
    change (UseStableSwap.loadingTriggerCell
              (UseStableSwap.run
                 (UseStableSwap.apply
                    (UseStableSwap.apply
                       (UseStableSwap.apply st
                          (UseStableSwap.SetCanSwap false))
                       (UseStableSwap.SetSwapError ErrNull))
                    (UseStableSwap.CallEstimateStableSwap a))
                 (stable_callbacks a ++ tail))
            = UseStableSwap.loadingTriggerCell
                (UseStableSwap.run st (stable_callbacks a))).
    rewrite stable_run_app, Htail.
    apply stable_callbacks_flag. reflexivity.
Qed.

(** The cells after a cycle of [useStableSwap] that reached the estimator:
    the two resets, the estimator's callbacks, the callbacks of the chain. *)
Lemma stable_run_cycle (st : UseStableSwap.State) a cbs tail :
  UseStableSwap.run st
    (UseStableSwap.SetCanSwap false
       :: UseStableSwap.SetSwapError ErrNull
       :: UseStableSwap.CallEstimateStableSwap a
       :: map UseStableSwap.event_of_callback cbs ++ tail)
  = UseStableSwap.run
      (UseStableSwap.run
         (UseStableSwap.apply
            (UseStableSwap.apply st (UseStableSwap.SetCanSwap false))
            (UseStableSwap.SetSwapError ErrNull))
         (map UseStableSwap.event_of_callback cbs))
      tail.
Proof.
  unfold UseStableSwap.run. simpl. now rewrite fold_left_app.
Qed.


(** The running sum of [reduce] is the sum of the pool fees of the legs. *)
Lemma reduce_fee_sum
  (estimates : list (View.EstimateSwapView Routes NodeRoutes)) (acc : Q) :
  fold_left (fun pre cur => pre + fee (View.pool cur)) estimates acc
  == acc + UseSwap.leg_fee_sum estimates.
Proof.
  revert acc. induction estimates as [|leg rest IH]; intro acc; simpl.
  - ring.
  - rewrite IH. ring.
Qed.

(** C7. After a cycle of [useSwap] whose estimation resolved to a non-empty
    list, the average fee is the sum of the pool fees of the legs when the
    first leg is tagged STABLE or SMART, and the amount-weighted average
    [getAverageFeeForRoutes] of the first leg's routes, node routes and total
    input amount when it is tagged PARALLEL. *)
Theorem C7_average_fee_by_mode :
  forall (o : SwapOptions) (tin tout : TokenMetadata) first rest
         (st : UseSwap.State Routes NodeRoutes),
    tokenIn o = Some tin -> tokenOut o = Some tout ->
    UseSwap.calls_estimator (events (swap_getEstimate o)) = true ->
    estimateSwap (UseSwap.estimate_args o tin tout)
    = Normal (Some (first :: rest)) ->
    (View.status first = STABLE \/ View.status first = SMART ->
     UseSwap.avgFee (UseSwap.run st (events (swap_getEstimate o)))
     == UseSwap.leg_fee_sum (first :: rest))
    /\ (View.status first = PARALLEL ->
        UseSwap.avgFee (UseSwap.run st (events (swap_getEstimate o)))
        = getAverageFeeForRoutes (View.allRoutes first)
            (View.allNodeRoutes first) (View.totalInputAmount first)).
Proof.
  intros o tin tout first rest st Hin Hout Hcall Hres.
  destruct (swap_cycle_called o Hcall)
    as (tin' & tout' & Hin' & Hout' & Hid & Hz).
  assert (tin' = tin) by congruence. assert (tout' = tout) by congruence.
  subst tin' tout'.
  assert (E : UseSwap.avgFee (UseSwap.run st (events (swap_getEstimate o)))
              = UseSwap.averageFee getAverageFeeForRoutes first
                  (first :: rest)).
  { rewrite (swap_cycle_estimates o tin tout Hin Hout Hid Hz).
    rewrite (swap_estimation_success o tin tout first rest Hz Hres).
    unfold events, UseSwap.run. destruct (loadingTrigger o); reflexivity. }
  rewrite E. unfold UseSwap.averageFee. split.
  - intros [-> | ->]; cbn [PoolMode_eqb orb];
      rewrite reduce_fee_sum; ring.
  - intros ->. reflexivity.
Qed.

(** ** The claims on [minAmountOut] *)

(** C9. In both hooks the [minAmountOut] returned is null exactly when
    [tokenOutAmount] is the empty string; when it is the string '0', as
    after a zero-amount quote of [useSwap], [minAmountOut] is not null: it
    is [percentLess(slippageTolerance, '0')]. *)
Theorem C9_minAmountOut_null_iff_blank :
  forall (o : SwapOptions) (stS : UseSwap.State Routes NodeRoutes)
         (stT : UseStableSwap.State),
    (UseSwap.minAmountOut o stS = None <-> UseSwap.tokenOutAmount stS = "")
    /\ (UseStableSwap.minAmountOut o stT = None
        <-> UseStableSwap.tokenOutAmount stT = "")
    /\ (UseSwap.tokenOutAmount stS = "0" ->
        UseSwap.minAmountOut o stS
        = Some (percentLess (slippageTolerance o) "0"))
    /\ (UseStableSwap.tokenOutAmount stT = "0" ->
        UseStableSwap.minAmountOut o stT
        = Some (percentLess (slippageTolerance o) "0"))
    /\ (forall tin tout,
           tokenIn o = Some tin -> tokenOut o = Some tout ->
           id tin <> id tout ->
           tokenInAmount o = "" \/ all_zero_digits (tokenInAmount o) = true ->
           UseSwap.minAmountOut o
             (UseSwap.run stS (events (swap_getEstimate o)))
           = Some (percentLess (slippageTolerance o) "0")).
Proof.
  intros o stS stT.
  unfold UseSwap.minAmountOut, UseStableSwap.minAmountOut, minAmountOut_of.
  repeat split.
  - destruct (UseSwap.tokenOutAmount stS); simpl; [reflexivity | discriminate].
  - intros ->. reflexivity.
  - destruct (UseStableSwap.tokenOutAmount stT); simpl;
      [reflexivity | discriminate].
  - intros ->. reflexivity.
  - intros ->. reflexivity.
  - intros ->. reflexivity.
  - intros tin tout Hin Hout Hid Hz.
    destruct (swap_zero_amount_short_circuit o tin tout stS Hin Hout Hid Hz)
      as (_ & _ & ->).
    reflexivity.
Qed.

End Sessions.

(** * Facts about the transaction outcome effect *)

Section Outcome.

Variable checkTransaction :
  string -> Completion (option TxOutcome.Transaction).

Local Abbreviation txHashEffect := (TxOutcome.txHashEffect checkTransaction).

(** The effect on a transaction hash whose lookup resolved. *)
Lemma txHashEffect_resolved (u : TxOutcome.URLInfo)
  (transaction : option TxOutcome.Transaction) :
  truthy (TxOutcome.txHash u) = true ->
  checkTransaction (TxOutcome.txHash u) = Normal transaction ->
  txHashEffect u
  = (TxOutcome.CheckTransaction (TxOutcome.txHash u)
       :: (if TxOutcome.isSwap transaction && TxOutcome.no_errorType u
           then [TxOutcome.SwapToast (TxOutcome.txHash u)]
           else [])
       ++ [TxOutcome.HistoryReplace (TxOutcome.pathname u)],
     Normal tt).
Proof.
  intros Hhash Hres.
  unfold TxOutcome.txHashEffect, TxOutcome.call_checkTransaction, then_, bind.
  rewrite Hhash, Hres. simpl.
  destruct (TxOutcome.isSwap transaction), (TxOutcome.no_errorType u);
    reflexivity.
Qed.

(** Without a transaction hash the effect does nothing. *)
Lemma txHashEffect_idle (u : TxOutcome.URLInfo) :
  TxOutcome.txHash u = "" -> txHashEffect u = ([], Normal tt).
Proof.
  intro H. unfold TxOutcome.txHashEffect. rewrite H. reflexivity.
Qed.

(** What the four comparisons of lines 116-122 accept. *)
Lemma isSwap_spec (transaction : option TxOutcome.Transaction) :
  TxOutcome.isSwap transaction = true
  <-> TxOutcome.swap_method (TxOutcome.method_name_at transaction 0) = true
      \/ TxOutcome.is_method (TxOutcome.method_name_at transaction 1)
           "ft_transfer_call" = true.
Proof.
  unfold TxOutcome.isSwap, TxOutcome.swap_method.
  rewrite !orb_true_iff. tauto.
Qed.

(** C5, as amended. For a transaction hash in the navigation context whose
    lookup resolves, the effect fetches the transaction; classifies it as a
    swap exactly when the first action is a function call of
    [ft_transfer_call], [swap] or [near_withdraw], or the second action is
    a function call of [ft_transfer_call]; emits the success notification
    exactly when it is so classified and the navigation context has no
    error code; and last replaces the navigation entry by the bare path,
    after which the transaction hash is gone and the effect does nothing. *)
Theorem C5_outcome_resolved_once :
  forall (u : TxOutcome.URLInfo)
         (transaction : option TxOutcome.Transaction),
    truthy (TxOutcome.txHash u) = true ->
    checkTransaction (TxOutcome.txHash u) = Normal transaction ->
    In (TxOutcome.CheckTransaction (TxOutcome.txHash u))
      (events (txHashEffect u))
    /\ (TxOutcome.isSwap transaction = true
        <-> TxOutcome.swap_method (TxOutcome.method_name_at transaction 0)
            = true
            \/ TxOutcome.is_method (TxOutcome.method_name_at transaction 1)
                 "ft_transfer_call" = true)
    /\ TxOutcome.toasts (events (txHashEffect u))
       = (if TxOutcome.isSwap transaction && TxOutcome.no_errorType u
          then [TxOutcome.txHash u] else [])
    /\ (exists before,
           events (txHashEffect u)
           = (before ++ [TxOutcome.HistoryReplace (TxOutcome.pathname u)])%list)
    /\ TxOutcome.txHash
         (TxOutcome.navigation_after u (events (txHashEffect u))) = ""
    /\ events
         (txHashEffect
            (TxOutcome.navigation_after u (events (txHashEffect u))))
       = [].
Proof.
  intros u transaction Hhash Hres.
  rewrite (txHashEffect_resolved u transaction Hhash Hres).
  unfold events at 1 2 3 4 5. simpl fst.
  split; [left; reflexivity |]. split; [apply isSwap_spec |].
  destruct (TxOutcome.isSwap transaction && TxOutcome.no_errorType u);
    (split; [reflexivity |]);
    (split; [eexists (_ :: _); reflexivity |]);
    (split; [reflexivity |]);
    now rewrite txHashEffect_idle.
Qed.

(** C10, as amended. For a transaction hash whose lookup resolves, the
    navigation entry is replaced by the originating path once, whatever the
    classification and whether or not an error code is present, while the
    success notification is emitted only for a transaction classified as a
    swap with no error code present. *)
Theorem C10_navigation_rewritten_unconditionally :
  forall (u : TxOutcome.URLInfo)
         (transaction : option TxOutcome.Transaction),
    truthy (TxOutcome.txHash u) = true ->
    checkTransaction (TxOutcome.txHash u) = Normal transaction ->
    TxOutcome.replaces (events (txHashEffect u)) = [TxOutcome.pathname u]
    /\ (forall hash,
           In (TxOutcome.SwapToast hash) (events (txHashEffect u))
           <-> hash = TxOutcome.txHash u
               /\ TxOutcome.isSwap transaction = true
               /\ TxOutcome.no_errorType u = true).
Proof.
  intros u transaction Hhash Hres.
  rewrite (txHashEffect_resolved u transaction Hhash Hres).
  unfold events. simpl fst.
  assert (Hnone : forall hash,
             In (TxOutcome.SwapToast hash)
               [TxOutcome.CheckTransaction (TxOutcome.txHash u);
                TxOutcome.HistoryReplace (TxOutcome.pathname u)] -> False).
  { intros hash [H | [H | []]]; discriminate H. }
  destruct (TxOutcome.isSwap transaction), (TxOutcome.no_errorType u);
    simpl app; (split; [reflexivity |]);
    intro hash; split.
  - intros [H | [H | [H | []]]]; try discriminate H.
    injection H as <-. repeat split.
  - intros (-> & _ & _). right. left. reflexivity.
  - intro H. destruct (Hnone hash H).
  - intros (_ & _ & H). discriminate H.
  - intro H. destruct (Hnone hash H).
  - intros (_ & H & _). discriminate H.
  - intro H. destruct (Hnone hash H).
  - intros (_ & H & _). discriminate H.
Qed.

End Outcome.

(** * The claims on the scenarios *)

Import Scenario.

(** C2 at the failing input: in [useStableSwap], with two distinct tokens and
    the amount '0' (or blank), the effect on the inputs calls the estimator,
    and [tokenOutAmount] is not set to '0': the earlier quote 4.99 stays when
    the estimator resolves, and the output is cleared, with an error
    recorded, when it rejects. *)
Theorem C2_stable_zero_amount_reaches_estimator :
  ONLY_ZEROS_test "0" = true
  /\ UseStableSwap.calls_estimator
       (events
          (UseStableSwap.onInputsChanged (stable_resolves "0")
             (options usdt usdc "0" 0.5 false) (stable_quoted "4.99" false)))
     = true
  /\ UseStableSwap.tokenOutAmount
       (UseStableSwap.run (stable_quoted "4.99" false)
          (events
             (UseStableSwap.onInputsChanged (stable_resolves "0")
                (options usdt usdc "0" 0.5 false)
                (stable_quoted "4.99" false))))
     = "4.99"
  /\ UseStableSwap.calls_estimator
       (events
          (UseStableSwap.onInputsChanged stable_rejects
             (options usdt usdc "" 0.5 false) (stable_quoted "4.99" false)))
     = true
  /\ UseStableSwap.tokenOutAmount
       (UseStableSwap.run (stable_quoted "4.99" false)
          (events
             (UseStableSwap.onInputsChanged stable_rejects
                (options usdt usdc "" 0.5 false)
                (stable_quoted "4.99" false))))
     = "".
Proof. repeat split. Qed.


(** C4 on an estimator that rejects, in both hooks, and on one that finds
    nothing. *)
Lemma C4_witness :
  (UseSwap.canSwap
     (UseSwap.run (swap_quoted "9" false)
        (events (swap_getEstimate rejects (options usdt usdc "10" 0.5 false))))
   = Some false
   /\ UseSwap.tokenOutAmount
        (UseSwap.run (swap_quoted "9" false)
           (events
              (swap_getEstimate rejects (options usdt usdc "10" 0.5 false))))
      = ""
   /\ UseSwap.swapError
        (UseSwap.run (swap_quoted "9" false)
           (events
              (swap_getEstimate rejects (options usdt usdc "10" 0.5 false))))
      = ErrCaught (Rejection "no pool")
   /\ completion
        (swap_getEstimate rejects (options usdt usdc "10" 0.5 false))
      = Normal tt)
  /\ (UseStableSwap.canSwap
        (UseStableSwap.run (stable_quoted "4.99" false)
           (events
              (UseStableSwap.getEstimate stable_rejects
                 (options usdt usdc "5" 0.5 false))))
      = Some false
      /\ UseStableSwap.tokenOutAmount
           (UseStableSwap.run (stable_quoted "4.99" false)
              (events
                 (UseStableSwap.getEstimate stable_rejects
                    (options usdt usdc "5" 0.5 false))))
         = ""
      /\ UseStableSwap.swapError
           (UseStableSwap.run (stable_quoted "4.99" false)
              (events
                 (UseStableSwap.getEstimate stable_rejects
                    (options usdt usdc "5" 0.5 false))))
         = ErrCaught (Rejection "no pool")
      /\ completion
           (UseStableSwap.getEstimate stable_rejects
              (options usdt usdc "5" 0.5 false))
         = Normal tt)
  /\ UseSwap.swapError
       (UseSwap.run (swap_quoted "9" false)
          (events
             (swap_getEstimate finds_nothing
                (options usdt usdc "10" 0.5 false))))
     = ErrCaught EmptyStringThrown.
Proof.
  pose proof (C4_failure_is_caught_and_recorded average_fee expected_output
                output_text rejects stable_rejects) as [HS HT].
  split; [| split].
  - exact (HS (options usdt usdc "10" 0.5 false) usdt usdc
              (Rejection "no pool") (swap_quoted "9" false)
              eq_refl eq_refl eq_refl eq_refl).
  - exact (HT (options usdt usdc "5" 0.5 false) usdt usdc
              (Rejection "no pool") (stable_quoted "4.99" false)
              eq_refl eq_refl eq_refl eq_refl).
  - exact (proj1 (proj2 (proj2
             (proj1 (C4_failure_is_caught_and_recorded average_fee
                       expected_output output_text finds_nothing
                       stable_rejects)
                (options usdt usdc "10" 0.5 false) usdt usdc
                EmptyStringThrown (swap_quoted "9" false)
                eq_refl eq_refl eq_refl eq_refl)))).
Defined.

(** C5 as stated fails on a transaction whose second action is a call of
    [swap] and whose first is no function call: a method name of the set is
    among the first two actions, the effect does not classify it as a swap,
    and no notification is emitted though no error code is present. *)
Lemma C5_swap_in_second_action_not_classified :
  TxOutcome.claimed_isSwap
    (Some {| TxOutcome.actions := [transfer; call "swap"] |}) = true
  /\ TxOutcome.isSwap
       (Some {| TxOutcome.actions := [transfer; call "swap"] |}) = false
  /\ TxOutcome.no_errorType (returned_from_wallet None) = true
  /\ TxOutcome.toasts
       (events
          (TxOutcome.txHashEffect (fetches [transfer; call "swap"])
             (returned_from_wallet None)))
     = [].
Proof. repeat split. Qed.

(** C5 on a transaction whose only action is a call of [swap], with no error
    code. *)
Lemma C5_witness :
  TxOutcome.isSwap (Some {| TxOutcome.actions := [call "swap"] |}) = true
  /\ TxOutcome.toasts
       (events
          (TxOutcome.txHashEffect (fetches [call "swap"])
             (returned_from_wallet None)))
     = ["9uZxS2"]
  /\ TxOutcome.txHash
       (TxOutcome.navigation_after (returned_from_wallet None)
          (events
             (TxOutcome.txHashEffect (fetches [call "swap"])
                (returned_from_wallet None))))
     = ""
  /\ events
       (TxOutcome.txHashEffect (fetches [call "swap"])
          (TxOutcome.navigation_after (returned_from_wallet None)
             (events
                (TxOutcome.txHashEffect (fetches [call "swap"])
                   (returned_from_wallet None)))))
     = [].
Proof.
  destruct (C5_outcome_resolved_once (fetches [call "swap"])
              (returned_from_wallet None)
              (Some {| TxOutcome.actions := [call "swap"] |})
              eq_refl eq_refl)
    as (_ & Hclass & Htoast & _ & Hhash & Hidle).
  split; [apply Hclass; left; reflexivity |].
  split; [exact Htoast |]. split; [exact Hhash | exact Hidle].
Defined.

(** X14 on a timer-raised refresh of [useSwap] that succeeds and on one
    that fails, and on a stable estimator that clears the flag itself. *)
Lemma cycle_clears_loadingTrigger_in_finally_witness :
  (UseSwap.loadingTriggerCell
     (UseSwap.run (swap_quoted "9" true)
        (events
           (swap_getEstimate finds_smart (options usdt usdc "10" 0.5 true))))
   = false
   /\ UseSwap.timer_armed (options usdt usdc "10" 0.5 false) = true)
  /\ UseSwap.loadingTriggerCell
       (UseSwap.run (swap_quoted "9" true)
          (events (swap_getEstimate rejects (options usdt usdc "10" 0.5 true))))
     = false
  /\ UseStableSwap.loadingTriggerCell
       (UseStableSwap.run (stable_quoted "4.99" true)
          (events
             (UseStableSwap.getEstimate stable_rejects
                (options usdt usdc "5" 0.5 true))))
     = false.
Proof.
  split; [| split].
  - destruct (proj1 (cycle_clears_loadingTrigger_in_finally average_fee
                       expected_output output_text finds_smart
                       stable_rejects)
                (options usdt usdc "10" 0.5 true) (swap_quoted "9" true)
                eq_refl) as [Hflag Htimer].
    split; [exact Hflag |].
    apply (Htimer (options usdt usdc "10" 0.5 false)). symmetry. exact Hflag.
  - exact (proj1
             (proj1 (cycle_clears_loadingTrigger_in_finally average_fee
                       expected_output output_text rejects stable_rejects)
                (options usdt usdc "10" 0.5 true) (swap_quoted "9" true)
                eq_refl)).
  - rewrite (proj2 (cycle_clears_loadingTrigger_in_finally average_fee
                      expected_output output_text rejects stable_rejects)
               (options usdt usdc "5" 0.5 true) usdt usdc
               (stable_quoted "4.99" true) eq_refl eq_refl eq_refl).
    reflexivity.
Defined.

(** C7 on a smart route of two legs with fees 30 and 5, and on a parallel
    route. *)
Lemma C7_witness :
  UseSwap.avgFee
    (UseSwap.run (swap_quoted "9" false)
       (events
          (swap_getEstimate finds_smart (options usdt usdc "10" 0.5 false))))
  == 35
  /\ UseSwap.avgFee
       (UseSwap.run (swap_quoted "9" false)
          (events
             (swap_getEstimate finds_parallel
                (options usdt usdc "10" 0.5 false))))
     = 20.
Proof.
  split.
  - destruct (C7_average_fee_by_mode average_fee expected_output output_text
                finds_smart (options usdt usdc "10" 0.5 false) usdt usdc
                (leg SMART pool_a) [leg SMART pool_b] (swap_quoted "9" false)
                eq_refl eq_refl eq_refl eq_refl) as [Hsum _].
    rewrite (Hsum (or_intror eq_refl)). reflexivity.
  - destruct (C7_average_fee_by_mode average_fee expected_output output_text
                finds_parallel (options usdt usdc "10" 0.5 false) usdt usdc
                (leg PARALLEL pool_a) [] (swap_quoted "9" false)
                eq_refl eq_refl eq_refl eq_refl) as [_ Hpar].
    exact (Hpar eq_refl).
Defined.

(** C8 on the same token on both sides, whatever the estimators would do. *)
Lemma C8_witness :
  UseSwap.canSwap
    (UseSwap.run (swap_quoted "9" false)
       (events
          (swap_getEstimate finds_smart (options usdt usdt "10" 0.5 false))))
  = Some false
  /\ UseStableSwap.canSwap
       (UseStableSwap.run (stable_quoted "4.99" false)
          (events
             (UseStableSwap.getEstimate (stable_resolves "5.01")
                (options usdt usdt "10" 0.5 false))))
     = Some false.
Proof.
  destruct (C8_same_token_leaves_canSwap_false average_fee expected_output
              output_text finds_smart (stable_resolves "5.01")
              (options usdt usdt "10" 0.5 false) usdt usdt
              eq_refl eq_refl eq_refl) as [HS HT].
  split.
  - exact (proj2 (proj2 (HS (swap_quoted "9" false)))).
  - exact (proj2 (proj2 (HT (stable_quoted "4.99" false)))).
Defined.

(** C9 on the visible output 0, after a zero-amount cycle of [useSwap], and on
    the initial cells. *)
Lemma C9_witness :
  UseSwap.minAmountOut (options usdt usdc "0" 0.5 false) (swap_quoted "0" false)
  = Some (percentLess 0.5 "0")
  /\ UseStableSwap.minAmountOut (options usdt usdc "0" 0.5 false)
       (stable_quoted "0" false)
     = Some (percentLess 0.5 "0")
  /\ UseSwap.minAmountOut (options usdt usdc "0" 0.5 false)
       (UseSwap.run (swap_quoted "9" false)
          (events
             (swap_getEstimate finds_smart (options usdt usdc "0" 0.5 false))))
     = Some (percentLess 0.5 "0")
  /\ UseSwap.minAmountOut (options usdt usdc "0" 0.5 false)
       (UseSwap.initial (Routes := unit) (NodeRoutes := unit))
     = None.
Proof.
  destruct (C9_minAmountOut_null_iff_blank average_fee expected_output
              output_text finds_smart (options usdt usdc "0" 0.5 false)
              (swap_quoted "0" false) (stable_quoted "0" false))
    as (_ & _ & HS & HT & _).
  destruct (C9_minAmountOut_null_iff_blank average_fee expected_output
              output_text finds_smart (options usdt usdc "0" 0.5 false)
              (swap_quoted "9" false) (stable_quoted "0" false))
    as (_ & _ & _ & _ & Hcycle).
  destruct (C9_minAmountOut_null_iff_blank average_fee expected_output
              output_text finds_smart (options usdt usdc "0" 0.5 false)
              UseSwap.initial (stable_quoted "0" false))
    as (Hnull & _).
  split; [exact (HS eq_refl) |]. split; [exact (HT eq_refl) |].
  split.
  - apply (Hcycle usdt usdc eq_refl eq_refl); [discriminate | now right].
  - apply Hnull. reflexivity.
Defined.

(** C10 as stated fails on a hash whose lookup rejects: the effect looks the
    hash up, the chain has no [catch] and neither [then] callback runs, so
    [history.replace] is not called and the navigation context still carries
    the hash. *)
Lemma C10_rejected_lookup_skips_history_replace :
  truthy (TxOutcome.txHash (returned_from_wallet None)) = true
  /\ events
       (TxOutcome.txHashEffect (fun _ => Throw (Rejection "timeout"))
          (returned_from_wallet None))
     = [TxOutcome.CheckTransaction "9uZxS2"]
  /\ TxOutcome.replaces
       (events
          (TxOutcome.txHashEffect (fun _ => Throw (Rejection "timeout"))
             (returned_from_wallet None)))
     <> [TxOutcome.pathname (returned_from_wallet None)]
  /\ TxOutcome.navigation_after (returned_from_wallet None)
       (events
          (TxOutcome.txHashEffect (fun _ => Throw (Rejection "timeout"))
             (returned_from_wallet None)))
     = returned_from_wallet None.
Proof.
  split; [reflexivity | split; [reflexivity | split; [| reflexivity]]].
  discriminate.
Qed.

(** C10 on a transaction that is no swap, with an error code present, and on
    a call of [near_withdraw] without one. *)
Lemma C10_witness :
  TxOutcome.replaces
    (events
       (TxOutcome.txHashEffect (fetches [transfer])
          (returned_from_wallet (Some "userRejected"))))
  = ["/swap"]
  /\ TxOutcome.toasts
       (events
          (TxOutcome.txHashEffect (fetches [transfer])
             (returned_from_wallet (Some "userRejected"))))
     = []
  /\ In (TxOutcome.SwapToast "9uZxS2")
       (events
          (TxOutcome.txHashEffect (fetches [call "near_withdraw"])
             (returned_from_wallet None))).
Proof.
  split; [| split].
  - exact (proj1 (C10_navigation_rewritten_unconditionally (fetches [transfer])
                    (returned_from_wallet (Some "userRejected"))
                    (Some {| TxOutcome.actions := [transfer] |})
                    eq_refl eq_refl)).
  - reflexivity.
  - apply (proj2 (C10_navigation_rewritten_unconditionally
                    (fetches [call "near_withdraw"])
                    (returned_from_wallet None)
                    (Some {| TxOutcome.actions := [call "near_withdraw"] |})
                    eq_refl eq_refl)).
    repeat split.
Defined.

(** * Further facts: the zero test and the reading of amounts *)

Lemma skip_zeros_empty_iff (s : string) :
  negb (truthy (skip_zeros s)) = all_zero_digits s.
Proof.
  induction s as [|c rest IH]; [reflexivity |].
  rewrite skip_zeros_cons. simpl.
  destruct (Ascii.eqb c "0"%char); [exact IH | reflexivity].
Qed.

Lemma digit_of_zero (c : ascii) : digit_of c = Some 0%N -> c = "0"%char.
Proof.
  unfold digit_of.
  destruct ((48 <=? N_of_ascii c)%N && (N_of_ascii c <=? 57)%N) eqn:E;
    [| discriminate].
  apply andb_true_iff in E. destruct E as [Hlo _].
  apply N.leb_le in Hlo. intro H. injection H as H.
  assert (Hc : N_of_ascii c = 48%N) by lia.
  rewrite <- (ascii_N_embedding c), Hc. reflexivity.
Qed.

Lemma ONLY_ZEROS_test_zero (rest : string) :
  ONLY_ZEROS_test (String "0"%char rest) = ONLY_ZEROS_test rest.
Proof. reflexivity. Qed.

Lemma ONLY_ZEROS_test_point (rest : string) :
  ONLY_ZEROS_test (String "."%char rest) = all_zero_digits rest.
Proof. unfold ONLY_ZEROS_test. simpl. apply skip_zeros_empty_iff. Qed.

Lemma ONLY_ZEROS_test_other (c : ascii) (rest : string) :
  Ascii.eqb c "0"%char = false -> Ascii.eqb c "."%char = false ->
  ONLY_ZEROS_test (String c rest) = false.
Proof.
  intros H0 Hp. unfold ONLY_ZEROS_test.
  rewrite skip_zeros_cons, H0, skip_point_cons, Hp, skip_zeros_cons, H0.
  reflexivity.
Qed.

Lemma Q_of_mantissa_zero (mant : N) (d : positive) :
  Z.of_N mant # d == 0 <-> mant = 0%N.
Proof.
  unfold Qeq. simpl. split; intro H; [lia | subst; reflexivity].
Qed.

(** After the point: the value is zero exactly when no digit read so far or
    still to come is other than 0. *)
Lemma digit_of_zero_char : digit_of "0"%char = Some 0%N.
Proof. reflexivity. Qed.

Lemma read_fraction_zero (s : string) :
  forall mant d seen x,
    read_decimal s mant (Some d) seen = Num x ->
    (x == 0 <-> mant = 0%N /\ all_zero_digits s = true).
Proof.
  induction s as [|c rest IH]; cbn [read_decimal all_zero_digits];
    intros mant d seen x H.
  - destruct seen; [| discriminate H]. injection H as <-.
    rewrite Q_of_mantissa_zero. tauto.
  - destruct (Ascii.eqb c "."%char) eqn:Ep; [discriminate H |].
    destruct (digit_of c) as [k|] eqn:Ed; [| discriminate H].
    rewrite (IH _ _ _ _ H).
    destruct (Ascii.eqb c "0"%char) eqn:E0; cbn [andb].
    + apply Ascii.eqb_eq in E0. subst c.
      rewrite digit_of_zero_char in Ed. injection Ed as <-.
      split; intros [H1 H2]; split; auto; lia.
    + split; intros [H1 H2]; [| discriminate H2].
      assert (k = 0%N) by lia. subst k.
      apply digit_of_zero in Ed. subst c. discriminate E0.
Qed.

(** Before the point. *)
Lemma read_integer_zero (s : string) :
  forall mant seen x,
    read_decimal s mant None seen = Num x ->
    (x == 0 <-> mant = 0%N /\ ONLY_ZEROS_test s = true).
Proof.
  induction s as [|c rest IH]; cbn [read_decimal]; intros mant seen x H.
  - destruct seen; [| discriminate H]. injection H as <-.
    rewrite Q_of_mantissa_zero. unfold ONLY_ZEROS_test. simpl. tauto.
  - destruct (Ascii.eqb c "."%char) eqn:Ep.
    + apply Ascii.eqb_eq in Ep. subst c.
      rewrite ONLY_ZEROS_test_point. exact (read_fraction_zero _ _ _ _ _ H).
    + destruct (digit_of c) as [k|] eqn:Ed; [| discriminate H].
      cbn [option_map] in H. rewrite (IH _ _ _ H).
      destruct (Ascii.eqb c "0"%char) eqn:E0.
      * apply Ascii.eqb_eq in E0. subst c.
        rewrite digit_of_zero_char in Ed. injection Ed as <-.
        rewrite ONLY_ZEROS_test_zero.
        split; intros [H1 H2]; split; auto; lia.
      * rewrite (ONLY_ZEROS_test_other c rest E0 Ep).
        split; intros [H1 H2]; [| discriminate H2].
        assert (k = 0%N) by lia. subst k.
        apply digit_of_zero in Ed. subst c. discriminate E0.
Qed.

Lemma read_fraction_of_zeros (s : string) :
  forall mant d seen,
    all_zero_digits s = true -> seen = true \/ s <> "" ->
    exists x, read_decimal s mant (Some d) seen = Num x.
Proof.
  induction s as [|c rest IH]; cbn [read_decimal all_zero_digits];
    intros mant d seen Hz Hs.
  - destruct Hs as [-> | Hs]; [eexists; reflexivity | congruence].
  - apply andb_true_iff in Hz. destruct Hz as [Hc Hr].
    apply Ascii.eqb_eq in Hc. subst c.
    change (Ascii.eqb "0" ".") with false. rewrite digit_of_zero_char.
    cbv iota. apply IH; [exact Hr | now left].
Qed.

Lemma read_integer_of_zeros (s : string) :
  forall mant seen,
    ONLY_ZEROS_test s = true -> seen = true \/ (s <> "" /\ s <> ".") ->
    exists x, read_decimal s mant None seen = Num x.
Proof.
  induction s as [|c rest IH]; intros mant seen Hz Hs.
  - destruct Hs as [-> | [Hs _]]; [eexists; reflexivity | congruence].
  - cbn [read_decimal].
    destruct (Ascii.eqb c "."%char) eqn:Ep.
    + apply Ascii.eqb_eq in Ep. subst c.
      rewrite ONLY_ZEROS_test_point in Hz.
      apply read_fraction_of_zeros; [exact Hz |].
      destruct Hs as [-> | [_ Hs]]; [now left | right].
      intros ->. apply Hs. reflexivity.
    + destruct (Ascii.eqb c "0"%char) eqn:E0.
      * apply Ascii.eqb_eq in E0. subst c.
        rewrite ONLY_ZEROS_test_zero in Hz. rewrite digit_of_zero_char.
        cbn [option_map]. apply IH; [exact Hz | now left].
      * rewrite (ONLY_ZEROS_test_other c rest E0 Ep) in Hz. discriminate Hz.
Qed.

(** X1. On an amount that reads as a decimal numeral, [ONLY_ZEROS] matches
    exactly when the value is zero; the only strings it matches that do not
    read as a numeral are the blank string and the lone point. *)
Theorem ONLY_ZEROS_matches_the_zero_numerals :
  forall s : string,
    (forall x : Q,
        decimal_value s = Num x -> (ONLY_ZEROS_test s = true <-> x == 0))
    /\ (ONLY_ZEROS_test s = true -> decimal_value s = NaN ->
        s = "" \/ s = ".").
Proof.
  intro s. split.
  - intros x Hx. rewrite (read_integer_zero s 0%N false x Hx). tauto.
  - intros Hz Hnan.
    destruct (string_dec s "") as [-> | Hne]; [now left |].
    destruct (string_dec s ".") as [-> | Hnp]; [now right |].
    destruct (read_integer_of_zeros s 0%N false Hz) as [x Hx];
      [right; split; assumption |].
    unfold decimal_value in Hnan. congruence.
Qed.

(** X1 on the amounts 0.00 and 0.01, and on the lone point. *)
Lemma ONLY_ZEROS_matches_the_zero_numerals_witness :
  (ONLY_ZEROS_test "0.00" = true <-> 0.00 == 0)
  /\ (ONLY_ZEROS_test "0.01" = true <-> 0.01 == 0)
  /\ ("." = "" \/ "." = ".").
Proof.
  split; [| split].
  - exact (proj1 (ONLY_ZEROS_matches_the_zero_numerals "0.00") 0.00 eq_refl).
  - exact (proj1 (ONLY_ZEROS_matches_the_zero_numerals "0.01") 0.01 eq_refl).
  - exact (proj2 (ONLY_ZEROS_matches_the_zero_numerals ".") eq_refl eq_refl).
Defined.

(** * Further facts about the estimation cycles *)

Section Cycles.

Context {Routes NodeRoutes BigNumber : Type} {numbers : Numbers}.
Variable getAverageFeeForRoutes : Routes -> NodeRoutes -> string -> Q.
Variable getExpectedOutputFromActions :
  list (View.EstimateSwapView Routes NodeRoutes) -> string -> BigNumber.
Variable toString : BigNumber -> string.
Variable estimateSwap :
  UseSwap.EstimateSwapArgs ->
  Completion (option (list (View.EstimateSwapView Routes NodeRoutes))).
Variable estimateStableSwap :
  UseStableSwap.EstimateStableArgs ->
  list UseStableSwap.Callback
  * Completion (option StableView.StableEstimate).

Local Abbreviation swap_getEstimate :=
  (UseSwap.getEstimate getAverageFeeForRoutes getExpectedOutputFromActions
     toString estimateSwap).
Local Abbreviation swap_estimation :=
  (UseSwap.estimation getAverageFeeForRoutes getExpectedOutputFromActions
     toString estimateSwap).
Local Abbreviation stable_getEstimate :=
  (UseStableSwap.getEstimate estimateStableSwap).
Local Abbreviation stable_estimation :=
  (UseStableSwap.estimation estimateStableSwap).
Local Abbreviation stable_callbacks :=
  (UseStableSwap.callback_events estimateStableSwap).

(** The events of a cycle of [useSwap] that answers a blank or zero amount,
    of one that fails, and of one that succeeds. *)
Local Abbreviation zero_answer :=
  [UseSwap.SetCanSwap false; UseSwap.SetSwapError ErrNull;
   UseSwap.SetTokenOutAmount "0"].

Local Abbreviation failed_cycle o tin tout pre err :=
  (UseSwap.SetCanSwap false :: UseSwap.SetSwapError ErrNull
     :: UseSwap.CallEstimateSwap (UseSwap.estimate_args o tin tout)
     :: pre ++ [UseSwap.SetCanSwap false; UseSwap.SetTokenOutAmount "";
                UseSwap.SetSwapError (ErrCaught err);
                UseSwap.SetLoadingTrigger false])%list.

Local Abbreviation estimated_cycle o tin tout first rest :=
  (UseSwap.SetCanSwap false :: UseSwap.SetSwapError ErrNull
     :: UseSwap.CallEstimateSwap (UseSwap.estimate_args o tin tout)
     :: UseSwap.SetCanSwap true
     :: UseSwap.SetAvgFee
          (UseSwap.averageFee getAverageFeeForRoutes first (first :: rest))
     :: (if loadingTrigger o then []
         else [UseSwap.SetTokenOutAmount
                 (toString
                    (getExpectedOutputFromActions (first :: rest) (id tout)));
               UseSwap.SetSwapsToDo (first :: rest)])
     ++ [UseSwap.SetPool (View.pool first);
         UseSwap.SetLoadingTrigger false])%list.

Lemma distinct_tokens_true (o : SwapOptions) :
  distinct_tokens o = true <->
  exists tin tout,
    tokenIn o = Some tin /\ tokenOut o = Some tout /\ id tin <> id tout.
Proof.
  unfold distinct_tokens. split.
  - destruct (tokenIn o) as [tin|], (tokenOut o) as [tout|];
      try discriminate.
    intro H. apply negb_true_iff, String.eqb_neq in H.
    exists tin, tout. auto.
  - intros (tin & tout & -> & -> & H).
    now apply negb_true_iff, String.eqb_neq.
Qed.

(** Every cycle of [useSwap] is of one of four kinds. *)
Lemma swap_cycle_cases (o : SwapOptions) :
  (distinct_tokens o = false
   /\ swap_getEstimate o = ([UseSwap.SetCanSwap false], Normal tt))
  \/ (distinct_tokens o = true
      /\ ONLY_ZEROS_test (tokenInAmount o) = true
      /\ swap_getEstimate o = (zero_answer, Normal tt))
  \/ (exists tin tout,
         tokenIn o = Some tin /\ tokenOut o = Some tout
         /\ distinct_tokens o = true
         /\ ONLY_ZEROS_test (tokenInAmount o) = false
         /\ ((exists err pre,
                 UseSwap.failure
                   (estimateSwap (UseSwap.estimate_args o tin tout))
                 = Some err
                 /\ (pre = [] \/ pre = [UseSwap.SetCanSwap true])
                 /\ swap_getEstimate o
                    = (failed_cycle o tin tout pre err, Normal tt))
             \/ (exists first rest,
                    estimateSwap (UseSwap.estimate_args o tin tout)
                    = Normal (Some (first :: rest))
                    /\ swap_getEstimate o
                       = (estimated_cycle o tin tout first rest, Normal tt)))).
Proof.
  unfold distinct_tokens.
  destruct (tokenIn o) as [tin|] eqn:Hin;
    [| left; unfold UseSwap.getEstimate; rewrite Hin; split; reflexivity].
  destruct (tokenOut o) as [tout|] eqn:Hout;
    [| left; unfold UseSwap.getEstimate; rewrite Hin, Hout; split;
       reflexivity].
  destruct (String.eqb (id tin) (id tout)) eqn:Hid.
  { left. unfold UseSwap.getEstimate.
    rewrite Hin, Hout, Hid, andb_false_r. split; reflexivity. }
  right.
  destruct (ONLY_ZEROS_test (tokenInAmount o)) eqn:Hz.
  { left. unfold UseSwap.getEstimate.
    rewrite Hin, Hout, Hid, Hz, orb_true_r. repeat split. }
  right. exists tin, tout.
  rewrite (swap_cycle_estimates getAverageFeeForRoutes
             getExpectedOutputFromActions toString estimateSwap
             o tin tout Hin Hout Hid Hz).
  repeat (split; [reflexivity |]).
  destruct (UseSwap.failure (estimateSwap (UseSwap.estimate_args o tin tout)))
    as [err|] eqn:Hf.
  - destruct (swap_estimation_failure getAverageFeeForRoutes
                getExpectedOutputFromActions toString estimateSwap
                o tin tout err Hf)
      as (pre & Hpre & ->).
    left. exists err, pre. repeat split; auto.
  - destruct (estimateSwap (UseSwap.estimate_args o tin tout))
      as [[[|first rest]|]|e] eqn:Hres; try discriminate Hf.
    rewrite (swap_estimation_success getAverageFeeForRoutes
               getExpectedOutputFromActions toString estimateSwap
               o tin tout first rest Hz Hres).
    right. exists first, rest. split; reflexivity.
Qed.

(** X2. A cycle of [useSwap] calls the estimator exactly when both tokens are
    present with different ids and the amount is not matched by
    [ONLY_ZEROS].  A cycle that does not call it issues the zero answer when
    the tokens are present and different, and [setCanSwap(false)] alone
    otherwise, whatever the amount: the trailing else-if is never taken. *)
Theorem swap_reaches_estimator_iff :
  forall o : SwapOptions,
    UseSwap.calls_estimator (events (swap_getEstimate o))
    = distinct_tokens o && negb (ONLY_ZEROS_test (tokenInAmount o))
    /\ (UseSwap.calls_estimator (events (swap_getEstimate o)) = false ->
        events (swap_getEstimate o)
        = if distinct_tokens o then zero_answer
          else [UseSwap.SetCanSwap false]).
Proof.
  intro o.
  destruct (swap_cycle_cases o)
    as [[Hd ->] | [(Hd & Hz & ->) | (tin & tout & _ & _ & Hd & Hz & Hres)]];
    rewrite Hd; rewrite ?Hz.
  - split; reflexivity.
  - split; reflexivity.
  - destruct Hres as [(err & pre & _ & _ & ->) | (first & rest & _ & ->)];
      (split; [reflexivity | discriminate]).
Qed.

(** X3. A cycle of [useSwap] that does not call the estimator leaves
    [canSwap] false and keeps the pool, the average fee, the route legs, the
    tick count and the [loadingTrigger] flag as they were: it does not clear
    the flag.  On tokens that are present and different the output becomes
    '0' and the error null; otherwise output and error are kept too. *)
Theorem swap_idle_cycle_keeps_quote_and_flag :
  forall (o : SwapOptions) (st : UseSwap.State Routes NodeRoutes),
    UseSwap.calls_estimator (events (swap_getEstimate o)) = false ->
    UseSwap.canSwap (UseSwap.run st (events (swap_getEstimate o)))
    = Some false
    /\ UseSwap.pool (UseSwap.run st (events (swap_getEstimate o)))
       = UseSwap.pool st
    /\ UseSwap.swapsToDo (UseSwap.run st (events (swap_getEstimate o)))
       = UseSwap.swapsToDo st
    /\ UseSwap.avgFee (UseSwap.run st (events (swap_getEstimate o)))
       = UseSwap.avgFee st
    /\ UseSwap.count (UseSwap.run st (events (swap_getEstimate o)))
       = UseSwap.count st
    /\ UseSwap.loadingTriggerCell
         (UseSwap.run st (events (swap_getEstimate o)))
       = UseSwap.loadingTriggerCell st
    /\ UseSwap.tokenOutAmount (UseSwap.run st (events (swap_getEstimate o)))
       = (if distinct_tokens o then "0" else UseSwap.tokenOutAmount st)
    /\ UseSwap.swapError (UseSwap.run st (events (swap_getEstimate o)))
       = (if distinct_tokens o then ErrNull else UseSwap.swapError st).
Proof.
  intros o st Hidle.
  destruct (swap_cycle_cases o)
    as [[Hd Hs] | [(Hd & Hz & Hs) | (tin & tout & _ & _ & Hd & Hz & Hres)]].
  - rewrite Hs, Hd. repeat split.
  - rewrite Hs, Hd. repeat split.
  - exfalso.
    destruct Hres as [(err & pre & _ & _ & Hs) | (first & rest & _ & Hs)];
      rewrite Hs in Hidle; discriminate Hidle.
Qed.

(** X4. After a cycle of [useSwap], [canSwap] is true exactly when the cycle
    called the estimator and the estimator resolved to a list with a first
    leg; in every other case it is false, whatever it was before. *)
Theorem swap_canSwap_iff_estimated :
  forall (o : SwapOptions) (st : UseSwap.State Routes NodeRoutes),
    (UseSwap.canSwap (UseSwap.run st (events (swap_getEstimate o)))
     = Some true
     <-> exists tin tout first rest,
           tokenIn o = Some tin /\ tokenOut o = Some tout
           /\ UseSwap.calls_estimator (events (swap_getEstimate o)) = true
           /\ estimateSwap (UseSwap.estimate_args o tin tout)
              = Normal (Some (first :: rest)))
    /\ (UseSwap.canSwap (UseSwap.run st (events (swap_getEstimate o)))
        = Some true
        \/ UseSwap.canSwap (UseSwap.run st (events (swap_getEstimate o)))
           = Some false).
Proof.
  intros o st.
  destruct (swap_cycle_cases o)
    as [[Hd Hs] | [(Hd & Hz & Hs)
                  | (tin & tout & Hin & Hout & Hd & Hz & Hres)]].
  - rewrite Hs. split; [| now right]. split; [discriminate |].
    intros (? & ? & ? & ? & _ & _ & Hcall & _). discriminate Hcall.
  - rewrite Hs. split; [| now right]. split; [discriminate |].
    intros (? & ? & ? & ? & _ & _ & Hcall & _). discriminate Hcall.
  - destruct Hres as [(err & pre & Hf & Hpre & Hs)
                     | (first & rest & Hok & Hs)]; rewrite Hs.
    + assert (E : UseSwap.canSwap
                    (UseSwap.run st
                       (events (failed_cycle o tin tout pre err, Normal tt)))
                  = Some false).
      { unfold events, UseSwap.run. simpl. rewrite fold_left_app.
        reflexivity. }
      rewrite E. split; [| now right]. split; [discriminate |].
      intros (tin' & tout' & first & rest & Hin' & Hout' & _ & Hok).
      assert (tin' = tin) by congruence. assert (tout' = tout) by congruence.
      subst tin' tout'. rewrite Hok in Hf. discriminate Hf.
    + assert (E : UseSwap.canSwap
                    (UseSwap.run st
                       (events
                          (estimated_cycle o tin tout first rest, Normal tt)))
                  = Some true).
      { unfold events, UseSwap.run. destruct (loadingTrigger o); reflexivity. }
      rewrite E. split; [| now left]. split; [| reflexivity].
      intros _. exists tin, tout, first, rest. auto.
Qed.

(** X5. A cycle of [useSwap] either keeps the route legs or replaces them by
    the non-empty list the estimator resolved to, which happens only with
    [loadingTrigger] down; the pool cell is then the pool of the first leg,
    the head of the [pools] the hook returns.  So the legs are never set to
    an empty list, on which [every] would hold vacuously.  On any cells,
    [isParallelSwap] true implies [isSmartRouteV2Swap] true. *)
Theorem swap_route_legs_replaced_whole :
  forall (o : SwapOptions) (st : UseSwap.State Routes NodeRoutes),
    (UseSwap.swapsToDo (UseSwap.run st (events (swap_getEstimate o)))
     = UseSwap.swapsToDo st
     \/ exists tin tout first rest,
          tokenIn o = Some tin /\ tokenOut o = Some tout
          /\ estimateSwap (UseSwap.estimate_args o tin tout)
             = Normal (Some (first :: rest))
          /\ loadingTrigger o = false
          /\ UseSwap.swapsToDo (UseSwap.run st (events (swap_getEstimate o)))
             = Some (first :: rest)
          /\ UseSwap.pool (UseSwap.run st (events (swap_getEstimate o)))
             = Some (View.pool first)
          /\ SwapReturn.pools (UseSwap.run st (events (swap_getEstimate o)))
             = Some (View.pool first :: map View.pool rest))
    /\ (UseSwap.swapsToDo st <> Some [] ->
        UseSwap.swapsToDo (UseSwap.run st (events (swap_getEstimate o)))
        <> Some [])
    /\ (SwapReturn.isParallelSwap st = Some true ->
        SwapReturn.isSmartRouteV2Swap st = Some true).
Proof.
  intros o st.
  assert (Hlegs :
    UseSwap.swapsToDo (UseSwap.run st (events (swap_getEstimate o)))
    = UseSwap.swapsToDo st
    \/ exists tin tout first rest,
         tokenIn o = Some tin /\ tokenOut o = Some tout
         /\ estimateSwap (UseSwap.estimate_args o tin tout)
            = Normal (Some (first :: rest))
         /\ loadingTrigger o = false
         /\ UseSwap.swapsToDo (UseSwap.run st (events (swap_getEstimate o)))
            = Some (first :: rest)
         /\ UseSwap.pool (UseSwap.run st (events (swap_getEstimate o)))
            = Some (View.pool first)
         /\ SwapReturn.pools (UseSwap.run st (events (swap_getEstimate o)))
            = Some (View.pool first :: map View.pool rest)).
  { destruct (swap_cycle_cases o)
      as [[_ ->] | [(_ & _ & ->)
                   | (tin & tout & Hin & Hout & _ & _ & Hres)]];
      [now left | now left |].
    destruct Hres as [(err & pre & Hf & Hpre & ->)
                     | (first & rest & Hok & ->)].
    - left. unfold events, UseSwap.run. simpl. rewrite fold_left_app.
      destruct Hpre as [-> | ->]; reflexivity.
    - destruct (loadingTrigger o) eqn:Ht.
      + left. reflexivity.
      + right. exists tin, tout, first, rest. repeat split; assumption. }
  split; [exact Hlegs |]. split.
  - intro Hne.
    destruct Hlegs as [-> | (_ & _ & first & rest & _ & _ & _ & _ & -> & _)];
      [exact Hne | discriminate].
  - unfold SwapReturn.isParallelSwap, SwapReturn.isSmartRouteV2Swap.
    destruct (UseSwap.swapsToDo st) as [legs|]; [| discriminate].
    simpl. intro H. injection H as H. f_equal.
    rewrite forallb_forall in H |- *. intros e He. specialize (H e He).
    destruct (View.status e); [reflexivity | discriminate H | discriminate H].
Qed.

(** X6. A tick of the refresh timer raises [loadingTrigger] and counts; the
    render that follows sets no second timer, and its cycle never touches
    the route legs.  The cycle clears the flag exactly when it calls the
    estimator: after a tick on a blank or zero amount, or on equal or
    missing tokens, the flag stays up, and the next render sets no timer
    either.  The visible output after the cycle is the earlier one, or ''
    after a failure, or '0'. *)
Theorem swap_timer_tick_then_cycle :
  forall (st : UseSwap.State Routes NodeRoutes) (next : SwapOptions),
    loadingTrigger next
    = UseSwap.loadingTriggerCell
        (UseSwap.run st (events (UseSwap.timer_tick st))) ->
    UseSwap.timer_armed next = false
    /\ UseSwap.count
         (UseSwap.run (UseSwap.run st (events (UseSwap.timer_tick st)))
            (events (swap_getEstimate next)))
       = (UseSwap.count st + 1)%nat
    /\ UseSwap.swapsToDo
         (UseSwap.run (UseSwap.run st (events (UseSwap.timer_tick st)))
            (events (swap_getEstimate next)))
       = UseSwap.swapsToDo st
    /\ UseSwap.loadingTriggerCell
         (UseSwap.run (UseSwap.run st (events (UseSwap.timer_tick st)))
            (events (swap_getEstimate next)))
       = negb (UseSwap.calls_estimator (events (swap_getEstimate next)))
    /\ (forall after : SwapOptions,
           loadingTrigger after
           = UseSwap.loadingTriggerCell
               (UseSwap.run (UseSwap.run st (events (UseSwap.timer_tick st)))
                  (events (swap_getEstimate next))) ->
           UseSwap.timer_armed after
           = UseSwap.calls_estimator (events (swap_getEstimate next))
             && negb (loadingPause after))
    /\ (UseSwap.tokenOutAmount
          (UseSwap.run (UseSwap.run st (events (UseSwap.timer_tick st)))
             (events (swap_getEstimate next)))
        = UseSwap.tokenOutAmount st
        \/ UseSwap.tokenOutAmount
             (UseSwap.run (UseSwap.run st (events (UseSwap.timer_tick st)))
                (events (swap_getEstimate next))) = ""
        \/ UseSwap.tokenOutAmount
             (UseSwap.run (UseSwap.run st (events (UseSwap.timer_tick st)))
                (events (swap_getEstimate next))) = "0").
Proof.
  intros st next Hnext.
  change (UseSwap.loadingTriggerCell
            (UseSwap.run st (events (UseSwap.timer_tick st)))) with true
    in Hnext.
  set (st1 := UseSwap.run st (events (UseSwap.timer_tick st))).
  assert (Hcells :
    UseSwap.count
      (UseSwap.run st1 (events (swap_getEstimate next)))
    = (UseSwap.count st + 1)%nat
    /\ UseSwap.swapsToDo (UseSwap.run st1 (events (swap_getEstimate next)))
       = UseSwap.swapsToDo st
    /\ UseSwap.loadingTriggerCell
         (UseSwap.run st1 (events (swap_getEstimate next)))
       = negb (UseSwap.calls_estimator (events (swap_getEstimate next)))
    /\ (UseSwap.tokenOutAmount
          (UseSwap.run st1 (events (swap_getEstimate next)))
        = UseSwap.tokenOutAmount st
        \/ UseSwap.tokenOutAmount
             (UseSwap.run st1 (events (swap_getEstimate next))) = ""
        \/ UseSwap.tokenOutAmount
             (UseSwap.run st1 (events (swap_getEstimate next))) = "0")).
  { destruct (swap_cycle_cases next)
      as [[_ ->] | [(_ & _ & ->)
                   | (tin & tout & _ & _ & _ & _ & Hres)]].
    - repeat split. now left.
    - repeat split. now right; right.
    - destruct Hres as [(err & pre & Hf & Hpre & ->)
                       | (first & rest & Hok & ->)];
        unfold events, UseSwap.run; simpl fst.
      + simpl. rewrite fold_left_app.
        destruct Hpre as [-> | ->]; repeat split; now right; left.
      + rewrite Hnext. repeat split. now left. }
  destruct Hcells as (Hcount & Hlegs & Hflag & Hout).
  split; [unfold UseSwap.timer_armed; now rewrite Hnext |].
  split; [exact Hcount |]. split; [exact Hlegs |].
  split; [exact Hflag |]. split; [| exact Hout].
  intros after Hafter. unfold UseSwap.timer_armed.
  rewrite Hafter, Hflag, negb_involutive. reflexivity.
Qed.

(** ** [useStableSwap] *)

Local Abbreviation stable_failed_cycle o tin tout err :=
  (UseStableSwap.SetCanSwap false :: UseStableSwap.SetSwapError ErrNull
     :: UseStableSwap.CallEstimateStableSwap
          (UseStableSwap.estimate_args o tin tout)
     :: stable_callbacks (UseStableSwap.estimate_args o tin tout)
     ++ [UseStableSwap.SetCanSwap false; UseStableSwap.SetTokenOutAmount "";
         UseStableSwap.SetNoFeeAmount "";
         UseStableSwap.SetSwapError (ErrCaught err)])%list.

Local Abbreviation stable_estimated_cycle o tin tout r pl :=
  (UseStableSwap.SetCanSwap false :: UseStableSwap.SetSwapError ErrNull
     :: UseStableSwap.CallEstimateStableSwap
          (UseStableSwap.estimate_args o tin tout)
     :: stable_callbacks (UseStableSwap.estimate_args o tin tout)
     ++ (if truthy (tokenInAmount o)
            && negb (ONLY_ZEROS_test (tokenInAmount o))
         then
           UseStableSwap.SetCanSwap true
             :: (if loadingTrigger o then []
                 else [UseStableSwap.SetNoFeeAmount (StableView.dy r);
                       UseStableSwap.SetTokenOutAmount
                         (StableView.estimate r)])
             ++ [UseStableSwap.SetPool pl]
         else []))%list.

(** Every cycle of [useStableSwap] is of one of three kinds. *)
Lemma stable_cycle_cases (o : SwapOptions) :
  (distinct_tokens o = false
   /\ stable_getEstimate o = ([UseStableSwap.SetCanSwap false], Normal tt))
  \/ (exists tin tout,
         tokenIn o = Some tin /\ tokenOut o = Some tout
         /\ distinct_tokens o = true
         /\ ((exists err,
                 UseStableSwap.failure
                   (snd (estimateStableSwap
                           (UseStableSwap.estimate_args o tin tout)))
                 = Some err
                 /\ stable_getEstimate o
                    = (stable_failed_cycle o tin tout err, Normal tt))
             \/ (exists r pl,
                    snd (estimateStableSwap
                           (UseStableSwap.estimate_args o tin tout))
                    = Normal (Some r)
                    /\ truthy (StableView.estimate r) = true
                    /\ StableView.pool r = Some pl
                    /\ stable_getEstimate o
                       = (stable_estimated_cycle o tin tout r pl,
                          Normal tt)))).
Proof.
  unfold distinct_tokens.
  destruct (tokenIn o) as [tin|] eqn:Hin;
    [| left; unfold UseStableSwap.getEstimate; rewrite Hin; split;
       reflexivity].
  destruct (tokenOut o) as [tout|] eqn:Hout;
    [| left; unfold UseStableSwap.getEstimate; rewrite Hin, Hout; split;
       reflexivity].
  destruct (String.eqb (id tin) (id tout)) eqn:Hid.
  { left. unfold UseStableSwap.getEstimate.
    rewrite Hin, Hout, Hid, andb_false_r. split; reflexivity. }
  right. exists tin, tout.
  rewrite (stable_cycle_estimates estimateStableSwap o tin tout Hin Hout Hid).
  repeat (split; [reflexivity |]).
  destruct (UseStableSwap.failure
              (snd (estimateStableSwap
                      (UseStableSwap.estimate_args o tin tout))))
    as [err|] eqn:Hf.
  - rewrite (stable_estimation_failure estimateStableSwap o tin tout err Hf).
    left. exists err. split; reflexivity.
  - unfold UseStableSwap.failure in Hf.
    destruct (snd (estimateStableSwap
                     (UseStableSwap.estimate_args o tin tout)))
      as [[r|]|e] eqn:Hres; try discriminate Hf.
    destruct (truthy (StableView.estimate r)) eqn:He; try discriminate Hf.
    destruct (StableView.pool r) as [pl|] eqn:Hp; try discriminate Hf.
    rewrite (stable_estimation_success estimateStableSwap o tin tout r pl
               Hres He Hp).
    right. exists r, pl. repeat split; assumption.
Qed.

(** The cells after a cycle of [useStableSwap] that called the estimator
    are those after the events that follow the estimator's callbacks, on
    cells that agree with the earlier ones on everything the callbacks and
    the two resets do not write. *)
Lemma stable_run_after_callbacks (st : UseStableSwap.State) a cbs tail :
  exists mid : UseStableSwap.State,
    UseStableSwap.run st
      (UseStableSwap.SetCanSwap false
         :: UseStableSwap.SetSwapError ErrNull
         :: UseStableSwap.CallEstimateStableSwap a
         :: map UseStableSwap.event_of_callback cbs ++ tail)
    = UseStableSwap.run mid tail
    /\ UseStableSwap.pool mid = UseStableSwap.pool st
    /\ UseStableSwap.tokenOutAmount mid = UseStableSwap.tokenOutAmount st
    /\ UseStableSwap.swapError mid = ErrNull
    /\ UseStableSwap.noFeeAmount mid = UseStableSwap.noFeeAmount st
    /\ UseStableSwap.tokenInAmountMemo mid
       = UseStableSwap.tokenInAmountMemo st.
Proof.
  rewrite stable_run_cycle.
  destruct (stable_callbacks_frame cbs
              (UseStableSwap.apply
                 (UseStableSwap.apply st (UseStableSwap.SetCanSwap false))
                 (UseStableSwap.SetSwapError ErrNull)))
    as (H1 & H2 & H3 & H4 & H5).
  simpl in H1, H2, H3, H4, H5.
  eexists. split; [reflexivity |]. repeat split; assumption.
Qed.

(** X7. A cycle of [useStableSwap] calls the estimator exactly when both
    tokens are present with different ids, on every amount, blank and zero
    included.  A cycle that does not call it issues [setCanSwap(false)]
    alone, so that every cell but [canSwap] is kept: the output is not set
    to '0' on this path, the trailing else-if being never taken. *)
Theorem stable_reaches_estimator_iff :
  forall (o : SwapOptions) (st : UseStableSwap.State),
    UseStableSwap.calls_estimator (events (stable_getEstimate o))
    = distinct_tokens o
    /\ (UseStableSwap.calls_estimator (events (stable_getEstimate o)) = false
        -> UseStableSwap.run st (events (stable_getEstimate o))
           = UseStableSwap.apply st (UseStableSwap.SetCanSwap false)).
Proof.
  intros o st.
  destruct (stable_cycle_cases o)
    as [[Hd ->] | (tin & tout & _ & _ & Hd & Hres)]; rewrite Hd.
  - split; reflexivity.
  - destruct Hres as [(err & _ & ->) | (r & pl & _ & _ & _ & ->)];
      (split; [reflexivity | discriminate]).
Qed.

(** X8. The effect of [useStableSwap] on its inputs always records the
    current amount in the memo cell.  It re-estimates exactly when the
    tokens are present and different and either [loadingTrigger] is down or
    the amount recorded at the previous change is blank or zeros: with
    [loadingTrigger] up, a change that follows a non-zero amount is not
    estimated by this effect, whatever the new amount. *)
Theorem stable_input_change_reestimates_iff :
  forall (o : SwapOptions) (st : UseStableSwap.State),
    UseStableSwap.tokenInAmountMemo
      (UseStableSwap.run st
         (events (UseStableSwap.onInputsChanged estimateStableSwap o st)))
    = tokenInAmount o
    /\ UseStableSwap.calls_estimator
         (events (UseStableSwap.onInputsChanged estimateStableSwap o st))
       = (negb (loadingTrigger o)
          || ONLY_ZEROS_test (UseStableSwap.tokenInAmountMemo st))
         && distinct_tokens o
    /\ (forall later : SwapOptions,
           loadingTrigger later = true ->
           UseStableSwap.calls_estimator
             (events
                (UseStableSwap.onInputsChanged estimateStableSwap later
                   (UseStableSwap.run st
                      (events
                         (UseStableSwap.onInputsChanged estimateStableSwap
                            o st)))))
           = ONLY_ZEROS_test (tokenInAmount o) && distinct_tokens later).
Proof.
  assert (Hmemo_kept : forall (o : SwapOptions) (st : UseStableSwap.State),
    UseStableSwap.tokenInAmountMemo
      (UseStableSwap.run st (events (stable_getEstimate o)))
    = UseStableSwap.tokenInAmountMemo st
    /\ UseStableSwap.calls_estimator (events (stable_getEstimate o))
       = distinct_tokens o).
  { intros o st.
    destruct (stable_cycle_cases o)
      as [[Hd ->] | (tin & tout & _ & _ & Hd & Hres)]; rewrite Hd;
      [split; reflexivity |].
    destruct Hres as [(err & _ & ->) | (r & pl & _ & _ & _ & ->)];
      (split; [| reflexivity]);
      unfold events, UseStableSwap.callback_events; simpl fst;
      match goal with
      | |- context [UseStableSwap.run st (_ :: _ :: _ :: map _ ?cbs ++ ?tl)] =>
          destruct (stable_run_after_callbacks st
                      (UseStableSwap.estimate_args o tin tout) cbs tl)
            as (mid & -> & _ & _ & _ & _ & <-)
      end.
    - reflexivity.
    - destruct (truthy (tokenInAmount o)
                && negb (ONLY_ZEROS_test (tokenInAmount o)));
        [destruct (loadingTrigger o) |]; reflexivity. }
  assert (Hstep : forall (o : SwapOptions) (st : UseStableSwap.State),
    UseStableSwap.tokenInAmountMemo
      (UseStableSwap.run st
         (events (UseStableSwap.onInputsChanged estimateStableSwap o st)))
    = tokenInAmount o
    /\ UseStableSwap.calls_estimator
         (events (UseStableSwap.onInputsChanged estimateStableSwap o st))
       = (negb (loadingTrigger o)
          || ONLY_ZEROS_test (UseStableSwap.tokenInAmountMemo st))
         && distinct_tokens o).
  { intros o st. unfold UseStableSwap.onInputsChanged.
    destruct (Hmemo_kept o
                (UseStableSwap.apply st
                   (UseStableSwap.SetTokenInAmountMemo (tokenInAmount o))))
      as [Hmemo Hcall].
    destruct (loadingTrigger o),
      (ONLY_ZEROS_test (UseStableSwap.tokenInAmountMemo st));
      simpl negb; simpl andb; simpl orb; cbv iota;
      try (split; reflexivity);
      destruct (stable_getEstimate o) as [l r]; unfold events in *;
      simpl in *; split; assumption. }
  intros o st. destruct (Hstep o st) as [Hmemo Hcalls].
  split; [exact Hmemo |]. split; [exact Hcalls |].
  intros later Hlater.
  destruct (Hstep later
              (UseStableSwap.run st
                 (events
                    (UseStableSwap.onInputsChanged estimateStableSwap o st))))
    as [_ Hnext].
  rewrite Hnext, Hmemo, Hlater. reflexivity.
Qed.

(** ** Submission *)

Variable swap : SwapSubmit.SwapArgs Routes NodeRoutes -> Completion unit.
Variable stableSwap : StableSubmit.StableSwapArgs -> Completion unit.

(** The error cell after a cycle of [useSwap]: kept when the tokens are not
    present and different, else null or the error of the estimation. *)
Lemma swap_cycle_error (o : SwapOptions)
  (st : UseSwap.State Routes NodeRoutes) :
  (distinct_tokens o = false
   /\ UseSwap.swapError (UseSwap.run st (events (swap_getEstimate o)))
      = UseSwap.swapError st)
  \/ (distinct_tokens o = true
      /\ (UseSwap.swapError (UseSwap.run st (events (swap_getEstimate o)))
          = ErrNull
          \/ exists tin tout err,
               tokenIn o = Some tin /\ tokenOut o = Some tout
               /\ UseSwap.failure
                    (estimateSwap (UseSwap.estimate_args o tin tout))
                  = Some err
               /\ UseSwap.swapError
                    (UseSwap.run st (events (swap_getEstimate o)))
                  = ErrCaught err)).
Proof.
  destruct (swap_cycle_cases o)
    as [[Hd ->] | [(Hd & _ & ->)
                  | (tin & tout & Hin & Hout & Hd & _ & Hres)]].
  - left. split; [exact Hd | reflexivity].
  - right. split; [exact Hd | now left].
  - right. split; [exact Hd |].
    destruct Hres as [(err & pre & Hf & Hpre & ->)
                     | (first & rest & Hok & ->)].
    + right. exists tin, tout, err. repeat split; try assumption.
      unfold events, UseSwap.run. simpl. rewrite fold_left_app.
      reflexivity.
    + left. unfold events, UseSwap.run.
      destruct (loadingTrigger o); reflexivity.
Qed.

(** X9. [makeSwap] of [useSwap] calls [swap] once, with the route legs of
    the cells as they are, and its chain settles fulfilled.  When [swap]
    resolves no cell changes; when it rejects, the reason is stored in
    [swapError] and every other cell is kept.  The next estimation cycle
    keeps that error when the tokens are not present and different, and
    otherwise replaces it by null or by the error of the estimation. *)
Theorem swap_submission_error_lifetime :
  forall (o : SwapOptions) (st : UseSwap.State Routes NodeRoutes)
         (useNearBalance : bool),
    completion (SwapSubmit.makeSwap swap o st useNearBalance) = Normal tt
    /\ SwapSubmit.submissions
         (events (SwapSubmit.makeSwap swap o st useNearBalance))
       = [SwapSubmit.swap_args o st useNearBalance]
    /\ (swap (SwapSubmit.swap_args o st useNearBalance) = Normal tt ->
        UseSwap.run st
          (SwapSubmit.cell_events
             (events (SwapSubmit.makeSwap swap o st useNearBalance)))
        = st)
    /\ (forall reason : JsError,
           swap (SwapSubmit.swap_args o st useNearBalance) = Throw reason ->
           UseSwap.run st
             (SwapSubmit.cell_events
                (events (SwapSubmit.makeSwap swap o st useNearBalance)))
           = UseSwap.apply st (UseSwap.SetSwapError (ErrCaught reason))
           /\ forall next : SwapOptions,
                (distinct_tokens next = false ->
                 UseSwap.swapError
                   (UseSwap.run
                      (UseSwap.apply st
                         (UseSwap.SetSwapError (ErrCaught reason)))
                      (events (swap_getEstimate next)))
                 = ErrCaught reason)
                /\ (distinct_tokens next = true ->
                    UseSwap.swapError
                      (UseSwap.run
                         (UseSwap.apply st
                            (UseSwap.SetSwapError (ErrCaught reason)))
                         (events (swap_getEstimate next)))
                    = ErrNull
                    \/ exists tin tout err,
                         tokenIn next = Some tin /\ tokenOut next = Some tout
                         /\ UseSwap.failure
                              (estimateSwap
                                 (UseSwap.estimate_args next tin tout))
                            = Some err
                         /\ UseSwap.swapError
                              (UseSwap.run
                                 (UseSwap.apply st
                                    (UseSwap.SetSwapError (ErrCaught reason)))
                                 (events (swap_getEstimate next)))
                            = ErrCaught err)).
Proof.
  intros o st useNearBalance. unfold SwapSubmit.makeSwap, catch_.
  destruct (swap (SwapSubmit.swap_args o st useNearBalance))
    as [[]|reason0] eqn:Hswap; simpl.
  - split; [reflexivity | split; [reflexivity | split; [reflexivity |]]].
    intros reason H. discriminate H.
  - split; [reflexivity | split; [reflexivity |]].
    split; [intro H; discriminate H |].
    intros reason H. injection H as <-. split; [reflexivity |].
    intro next.
    destruct (swap_cycle_error next
                (UseSwap.apply st (UseSwap.SetSwapError (ErrCaught reason0))))
      as [[Hd Herr] | [Hd Herr]]; simpl in Herr; split; intro Hd';
      solve [congruence | exact Herr].
Qed.

(** X10. What [makeSwap] of [useStableSwap] submits after an estimation
    cycle, with no regard to [canSwap].  After a cycle that failed it submits
    a null [minAmountOut] and the pool of the earlier quote.  After a cycle
    that succeeded on an amount that is neither blank nor zeros it submits
    the pool of the new estimate; its [minAmountOut] is taken from the new
    estimate when [loadingTrigger] was down, and from the output shown
    before when it was up. *)
Theorem stable_submission_after_cycle :
  forall (o : SwapOptions) (tin tout : TokenMetadata)
         (st : UseStableSwap.State) (useNearBalance : bool),
    tokenIn o = Some tin -> tokenOut o = Some tout ->
    distinct_tokens o = true ->
    StableSubmit.submissions
      (events
         (StableSubmit.makeSwap stableSwap o
            (UseStableSwap.run st (events (stable_getEstimate o)))
            useNearBalance))
    = [StableSubmit.swap_args o
         (UseStableSwap.run st (events (stable_getEstimate o)))
         useNearBalance]
    /\ (forall err,
           UseStableSwap.failure
             (snd (estimateStableSwap
                     (UseStableSwap.estimate_args o tin tout)))
           = Some err ->
           StableSubmit.arg_minAmountOut
             (StableSubmit.swap_args o
                (UseStableSwap.run st (events (stable_getEstimate o)))
                useNearBalance)
           = None
           /\ StableSubmit.arg_pool
                (StableSubmit.swap_args o
                   (UseStableSwap.run st (events (stable_getEstimate o)))
                   useNearBalance)
              = UseStableSwap.pool st)
    /\ (forall r pl,
           snd (estimateStableSwap (UseStableSwap.estimate_args o tin tout))
           = Normal (Some r) ->
           truthy (StableView.estimate r) = true ->
           StableView.pool r = Some pl ->
           ONLY_ZEROS_test (tokenInAmount o) = false ->
           StableSubmit.arg_pool
             (StableSubmit.swap_args o
                (UseStableSwap.run st (events (stable_getEstimate o)))
                useNearBalance)
           = Some pl
           /\ StableSubmit.arg_minAmountOut
                (StableSubmit.swap_args o
                   (UseStableSwap.run st (events (stable_getEstimate o)))
                   useNearBalance)
              = (if loadingTrigger o
                 then minAmountOut_of (slippageTolerance o)
                        (UseStableSwap.tokenOutAmount st)
                 else Some (percentLess (slippageTolerance o)
                              (StableView.estimate r)))).
Proof.
  intros o tin tout st useNearBalance Hin Hout Hd.
  split.
  { unfold StableSubmit.makeSwap, catch_.
    destruct (stableSwap _) as [[]|reason]; reflexivity. }
  unfold StableSubmit.swap_args, StableSubmit.arg_minAmountOut,
    StableSubmit.arg_pool, UseStableSwap.minAmountOut.
  destruct (stable_cycle_cases o)
    as [[Hd' _] | (tin' & tout' & Hin' & Hout' & _ & Hres)];
    [congruence |].
  assert (tin' = tin) by congruence. assert (tout' = tout) by congruence.
  subst tin' tout'.
  split.
  - intros err Hf.
    destruct Hres as [(err' & _ & ->) | (r & pl & Hok & He & Hp & _)].
    + unfold events, UseStableSwap.callback_events. simpl fst.
      destruct (stable_run_after_callbacks st
                  (UseStableSwap.estimate_args o tin tout)
                  (fst (estimateStableSwap
                          (UseStableSwap.estimate_args o tin tout)))
                  [UseStableSwap.SetCanSwap false;
                   UseStableSwap.SetTokenOutAmount "";
                   UseStableSwap.SetNoFeeAmount "";
                   UseStableSwap.SetSwapError (ErrCaught err')])
        as (mid & -> & Hpool & _).
      split; [reflexivity | exact Hpool].
    + unfold UseStableSwap.failure in Hf. rewrite Hok, He, Hp in Hf.
      discriminate Hf.
  - intros r pl Hok He Hp Hz.
    assert (Ht : truthy (tokenInAmount o) = true).
    { destruct (tokenInAmount o); [discriminate Hz | reflexivity]. }
    destruct Hres as [(err' & Hf & _) | (r' & pl' & Hok' & _ & Hp' & ->)].
    + unfold UseStableSwap.failure in Hf. rewrite Hok, He, Hp in Hf.
      discriminate Hf.
    + assert (r' = r) by congruence. subst r'.
      assert (pl' = pl) by congruence. subst pl'.
      rewrite Ht, Hz. simpl andb. cbv iota.
      unfold events, UseStableSwap.callback_events. simpl fst.
      match goal with
      | |- context [UseStableSwap.run st (_ :: _ :: _ :: map _ ?cbs ++ ?tl)] =>
          destruct (stable_run_after_callbacks st
                      (UseStableSwap.estimate_args o tin tout) cbs tl)
            as (mid & -> & _ & Hshown & _)
      end.
      destruct (loadingTrigger o); simpl.
      * split; [reflexivity |]. now rewrite Hshown.
      * split; [reflexivity |]. unfold minAmountOut_of. now rewrite He.
Qed.

End Cycles.

(** * Further facts: the outcome effect off the resolved path *)

Section OutcomeEdges.

Variable checkTransaction :
  string -> Completion (option TxOutcome.Transaction).

Local Abbreviation txHashEffect := (TxOutcome.txHashEffect checkTransaction).

(** X12. The outcome effect off the path of a resolved lookup.  Without a
    transaction hash it does nothing, not even the lookup.  When the lookup
    rejects, nothing follows it: no notification, no navigation rewrite, so
    the hash stays in the navigation context, and the rejection is left
    unhandled.  When the lookup resolves without a transaction, the
    navigation is rewritten without a notification.  The classification
    reads no action beyond the second. *)
Theorem outcome_effect_off_the_resolved_path :
  forall u : TxOutcome.URLInfo,
    (TxOutcome.txHash u = "" -> txHashEffect u = ([], Normal tt))
    /\ (forall reason : JsError,
           truthy (TxOutcome.txHash u) = true ->
           checkTransaction (TxOutcome.txHash u) = Throw reason ->
           txHashEffect u
           = ([TxOutcome.CheckTransaction (TxOutcome.txHash u)], Throw reason)
           /\ TxOutcome.navigation_after u (events (txHashEffect u)) = u)
    /\ (truthy (TxOutcome.txHash u) = true ->
        checkTransaction (TxOutcome.txHash u) = Normal None ->
        events (txHashEffect u)
        = [TxOutcome.CheckTransaction (TxOutcome.txHash u);
           TxOutcome.HistoryReplace (TxOutcome.pathname u)])
    /\ (forall first second rest,
           TxOutcome.isSwap
             (Some {| TxOutcome.actions := first :: second :: rest |})
           = TxOutcome.isSwap
               (Some {| TxOutcome.actions := [first; second] |})).
Proof.
  intro u. split; [| split; [| split]].
  - intro H. unfold TxOutcome.txHashEffect. rewrite H. reflexivity.
  - intros reason Hhash Hres.
    assert (E : txHashEffect u
                = ([TxOutcome.CheckTransaction (TxOutcome.txHash u)],
                   Throw reason)).
    { unfold TxOutcome.txHashEffect, TxOutcome.call_checkTransaction,
        then_, bind.
      rewrite Hhash, Hres. reflexivity. }
    rewrite E. split; reflexivity.
  - intros Hhash Hres.
    unfold TxOutcome.txHashEffect, TxOutcome.call_checkTransaction,
      then_, bind.
    rewrite Hhash, Hres. reflexivity.
  - intros first second rest. reflexivity.
Qed.

End OutcomeEdges.

(** * Further facts: the popular tokens *)

Lemma indexOf_from_found (l : list string) (x : string) :
  forall i : Z,
    (0 <= i)%Z -> ((-1 <? CommonBasses.indexOf_from l x i)%Z = true <-> In x l).
Proof.
  induction l as [|y rest IH]; intros i Hi; simpl.
  - split; [discriminate | contradiction].
  - destruct (String.eqb y x) eqn:E.
    + apply String.eqb_eq in E. split; [now left |].
      intros _. apply Z.ltb_lt. lia.
    + apply String.eqb_neq in E. rewrite IH by lia.
      split; [now right | intros [H | H]; [contradiction | exact H]].
Qed.

Lemma is_common_spec (item : option TokenMetadata) :
  CommonBasses.is_common item = true
  <-> exists t, item = Some t /\ In (symbol t) CommonBasses.COMMON_BASSES.
Proof.
  unfold CommonBasses.is_common, CommonBasses.indexOf.
  destruct item as [t|].
  - rewrite indexOf_from_found by lia. split.
    + intro H. exists t. auto.
    + intros (t' & Ht & H). injection Ht as <-. exact H.
  - split; [discriminate | intros (t & Ht & _); discriminate Ht].
Qed.

(** X11. The popular tokens shown are exactly the entries of the token list
    that are defined and whose symbol is literally one of the eleven of
    [COMMON_BASSES]; they keep the order and the repetitions of the token
    list, so the filter of a concatenation is the concatenation of the
    filters, and filtering again changes nothing. *)
Theorem common_basses_are_the_listed_symbols :
  forall tokens : list (option TokenMetadata),
    (forall item,
        In item (CommonBasses.commonBassesTokens tokens)
        <-> In item tokens
            /\ exists t,
                 item = Some t /\ In (symbol t) CommonBasses.COMMON_BASSES)
    /\ (forall more,
           CommonBasses.commonBassesTokens (tokens ++ more)
           = (CommonBasses.commonBassesTokens tokens
                ++ CommonBasses.commonBassesTokens more)%list)
    /\ CommonBasses.commonBassesTokens (CommonBasses.commonBassesTokens tokens)
       = CommonBasses.commonBassesTokens tokens
    /\ (length (CommonBasses.commonBassesTokens tokens) <= length tokens)%nat.
Proof.
  intro tokens. unfold CommonBasses.commonBassesTokens.
  split; [| split; [| split]].
  - intro item. rewrite filter_In, is_common_spec. reflexivity.
  - intro more. apply filter_app.
  - induction tokens as [|item rest IH]; [reflexivity |].
    simpl. destruct (CommonBasses.is_common item) eqn:E; simpl;
      [rewrite E, IH; reflexivity | exact IH].
  - induction tokens as [|item rest IH]; [apply le_n |].
    simpl. destruct (CommonBasses.is_common item); simpl; lia.
Qed.

(** * The further facts on the scenarios *)

(** X2 on a blank amount with two different tokens, on a blank amount with
    one token on both sides, and on the amount 10. *)
Lemma swap_reaches_estimator_iff_witness :
  events (swap_getEstimate finds_smart (options usdt usdc "" 0.5 false))
  = [UseSwap.SetCanSwap false; UseSwap.SetSwapError ErrNull;
     UseSwap.SetTokenOutAmount "0"]
  /\ events (swap_getEstimate finds_smart (options usdt usdt "" 0.5 false))
     = [UseSwap.SetCanSwap false]
  /\ UseSwap.calls_estimator
       (events
          (swap_getEstimate finds_smart (options usdt usdc "10" 0.5 false)))
     = true.
Proof.
  split; [| split].
  - exact (proj2 (swap_reaches_estimator_iff average_fee expected_output
                    output_text finds_smart (options usdt usdc "" 0.5 false))
             eq_refl).
  - exact (proj2 (swap_reaches_estimator_iff average_fee expected_output
                    output_text finds_smart (options usdt usdt "" 0.5 false))
             eq_refl).
  - exact (proj1 (swap_reaches_estimator_iff average_fee expected_output
                    output_text finds_smart
                    (options usdt usdc "10" 0.5 false))).
Defined.

(** X3 on a timer-raised cycle on the amount 0: the flag stays up. *)
Lemma swap_idle_cycle_keeps_quote_and_flag_witness :
  UseSwap.loadingTriggerCell
    (UseSwap.run (swap_quoted "9" true)
       (events (swap_getEstimate finds_smart (options usdt usdc "0" 0.5 true))))
  = true
  /\ UseSwap.tokenOutAmount
       (UseSwap.run (swap_quoted "9" true)
          (events
             (swap_getEstimate finds_smart (options usdt usdc "0" 0.5 true))))
     = "0"
  /\ UseSwap.swapsToDo
       (UseSwap.run (swap_quoted "9" true)
          (events
             (swap_getEstimate finds_smart (options usdt usdc "0" 0.5 true))))
     = Some [leg PARALLEL pool_a].
Proof.
  destruct (swap_idle_cycle_keeps_quote_and_flag average_fee expected_output
              output_text finds_smart (options usdt usdc "0" 0.5 true)
              (swap_quoted "9" true) eq_refl)
    as (_ & _ & Hlegs & _ & _ & Hflag & Hout & _).
  split; [exact Hflag | split; [exact Hout | exact Hlegs]].
Defined.

(** X4 on an estimator that finds a route and on one that finds nothing. *)
Lemma swap_canSwap_iff_estimated_witness :
  UseSwap.canSwap
    (UseSwap.run UseSwap.initial
       (events
          (swap_getEstimate finds_smart (options usdt usdc "10" 0.5 true))))
  = Some true
  /\ UseSwap.canSwap
       (UseSwap.run (swap_quoted "9" false)
          (events
             (swap_getEstimate finds_nothing
                (options usdt usdc "10" 0.5 false))))
     <> Some true.
Proof.
  split.
  - apply (proj1 (swap_canSwap_iff_estimated average_fee expected_output
                    output_text finds_smart (options usdt usdc "10" 0.5 true)
                    UseSwap.initial)).
    exists usdt, usdc, (leg SMART pool_a), [leg SMART pool_b].
    repeat split.
  - intro H.
    apply (proj1 (swap_canSwap_iff_estimated average_fee expected_output
                    output_text finds_nothing
                    (options usdt usdc "10" 0.5 false)
                    (swap_quoted "9" false))) in H.
    destruct H as (tin & tout & first & rest & _ & _ & _ & H).
    discriminate H.
Defined.

(** X5 on a cycle that finds nothing, and on the flags of an earlier
    parallel quote. *)
Lemma swap_route_legs_replaced_whole_witness :
  UseSwap.swapsToDo
    (UseSwap.run (swap_quoted "9" false)
       (events
          (swap_getEstimate finds_nothing (options usdt usdc "10" 0.5 false))))
  <> Some []
  /\ SwapReturn.isSmartRouteV2Swap (swap_quoted "9" false) = Some true.
Proof.
  destruct (swap_route_legs_replaced_whole average_fee expected_output
              output_text finds_nothing (options usdt usdc "10" 0.5 false)
              (swap_quoted "9" false)) as (_ & Hne & Hflags).
  split; [apply Hne; discriminate | apply Hflags; reflexivity].
Defined.

(** X6 on a tick followed by a cycle on the amount 0, and by one on the
    amount 10. *)
Lemma swap_timer_tick_then_cycle_witness :
  UseSwap.loadingTriggerCell
    (UseSwap.run
       (UseSwap.run (swap_quoted "9" false)
          (events (UseSwap.timer_tick (swap_quoted "9" false))))
       (events (swap_getEstimate finds_smart (options usdt usdc "0" 0.5 true))))
  = true
  /\ UseSwap.loadingTriggerCell
       (UseSwap.run
          (UseSwap.run (swap_quoted "9" false)
             (events (UseSwap.timer_tick (swap_quoted "9" false))))
          (events
             (swap_getEstimate finds_smart (options usdt usdc "10" 0.5 true))))
     = false
  /\ UseSwap.count
       (UseSwap.run
          (UseSwap.run (swap_quoted "9" false)
             (events (UseSwap.timer_tick (swap_quoted "9" false))))
          (events
             (swap_getEstimate finds_smart (options usdt usdc "10" 0.5 true))))
     = 1%nat.
Proof.
  destruct (swap_timer_tick_then_cycle average_fee expected_output output_text
              finds_smart (swap_quoted "9" false)
              (options usdt usdc "0" 0.5 true) eq_refl)
    as (_ & _ & _ & Hzero & _).
  destruct (swap_timer_tick_then_cycle average_fee expected_output output_text
              finds_smart (swap_quoted "9" false)
              (options usdt usdc "10" 0.5 true) eq_refl)
    as (_ & Hcount & _ & Hflag & _).
  split; [exact Hzero | split; [exact Hflag | exact Hcount]].
Defined.

(** X7 on the amount 0 with two different tokens, and on one token on both
    sides. *)
Lemma stable_reaches_estimator_iff_witness :
  UseStableSwap.calls_estimator
    (events
       (UseStableSwap.getEstimate (stable_resolves "0")
          (options usdt usdc "0" 0.5 false)))
  = true
  /\ UseStableSwap.tokenOutAmount
       (UseStableSwap.run (stable_quoted "4.99" false)
          (events
             (UseStableSwap.getEstimate (stable_resolves "0")
                (options usdt usdt "" 0.5 false))))
     = "4.99".
Proof.
  split.
  - exact (proj1 (stable_reaches_estimator_iff (stable_resolves "0")
                    (options usdt usdc "0" 0.5 false)
                    (stable_quoted "4.99" false))).
  - rewrite (proj2 (stable_reaches_estimator_iff (stable_resolves "0")
                      (options usdt usdt "" 0.5 false)
                      (stable_quoted "4.99" false)) eq_refl).
    reflexivity.
Defined.

(** X8 with [loadingTrigger] up: after the amount 5 a change to 7 is not
    estimated; after the amount 0 a change to 7 is. *)
Lemma stable_input_change_reestimates_iff_witness :
  UseStableSwap.calls_estimator
    (events
       (UseStableSwap.onInputsChanged (stable_resolves "6.9")
          (options usdt usdc "7" 0.5 true)
          (UseStableSwap.run UseStableSwap.initial
             (events
                (UseStableSwap.onInputsChanged (stable_resolves "6.9")
                   (options usdt usdc "5" 0.5 false)
                   UseStableSwap.initial)))))
  = false
  /\ UseStableSwap.calls_estimator
       (events
          (UseStableSwap.onInputsChanged (stable_resolves "6.9")
             (options usdt usdc "7" 0.5 true)
             (UseStableSwap.run UseStableSwap.initial
                (events
                   (UseStableSwap.onInputsChanged (stable_resolves "6.9")
                      (options usdt usdc "0" 0.5 false)
                      UseStableSwap.initial)))))
     = true.
Proof.
  split.
  - exact (proj2 (proj2 (stable_input_change_reestimates_iff
                           (stable_resolves "6.9")
                           (options usdt usdc "5" 0.5 false)
                           UseStableSwap.initial))
             (options usdt usdc "7" 0.5 true) eq_refl).
  - exact (proj2 (proj2 (stable_input_change_reestimates_iff
                           (stable_resolves "6.9")
                           (options usdt usdc "0" 0.5 false)
                           UseStableSwap.initial))
             (options usdt usdc "7" 0.5 true) eq_refl).
Defined.

(** X9 on a submission that the wallet refuses, followed by a cycle on one
    token on both sides and by a cycle that finds a route. *)
Lemma swap_submission_error_lifetime_witness :
  UseSwap.swapError
    (UseSwap.run (swap_quoted "9" false)
       (SwapSubmit.cell_events
          (events
             (SwapSubmit.makeSwap Cases.refuses
                (options usdt usdc "10" 0.5 false) (swap_quoted "9" false)
                true))))
  = ErrCaught (Rejection "user rejected")
  /\ UseSwap.swapError
       (UseSwap.run
          (UseSwap.apply (swap_quoted "9" false)
             (UseSwap.SetSwapError (ErrCaught (Rejection "user rejected"))))
          (events
             (swap_getEstimate finds_smart (options usdt usdt "10" 0.5 false))))
     = ErrCaught (Rejection "user rejected")
  /\ UseSwap.run (swap_quoted "9" false)
       (SwapSubmit.cell_events
          (events
             (SwapSubmit.makeSwap Cases.accepts
                (options usdt usdc "10" 0.5 false) (swap_quoted "9" false)
                true)))
     = swap_quoted "9" false.
Proof.
  destruct (swap_submission_error_lifetime average_fee expected_output
              output_text finds_smart Cases.refuses
              (options usdt usdc "10" 0.5 false) (swap_quoted "9" false) true)
    as (_ & _ & _ & Hrej).
  destruct (Hrej (Rejection "user rejected") eq_refl) as [Hstored Hnext].
  split; [rewrite Hstored; reflexivity |].
  split.
  - exact (proj1 (Hnext (options usdt usdt "10" 0.5 false)) eq_refl).
  - destruct (swap_submission_error_lifetime average_fee expected_output
                output_text finds_smart Cases.accepts
                (options usdt usdc "10" 0.5 false) (swap_quoted "9" false)
                true)
      as (_ & _ & Hok & _).
    exact (Hok eq_refl).
Defined.

(** X10 after a cycle that fails, and after a timer-raised cycle that
    succeeds. *)
Lemma stable_submission_after_cycle_witness :
  StableSubmit.arg_minAmountOut
    (StableSubmit.swap_args (options usdt usdc "5" 0.5 false)
       (UseStableSwap.run (stable_quoted "4.99" false)
          (events
             (UseStableSwap.getEstimate stable_rejects
                (options usdt usdc "5" 0.5 false))))
       true)
  = None
  /\ StableSubmit.arg_pool
       (StableSubmit.swap_args (options usdt usdc "5" 0.5 false)
          (UseStableSwap.run (stable_quoted "4.99" false)
             (events
                (UseStableSwap.getEstimate stable_rejects
                   (options usdt usdc "5" 0.5 false))))
          true)
     = Some pool_b
  /\ StableSubmit.arg_minAmountOut
       (StableSubmit.swap_args (options usdt usdc "5" 0.5 true)
          (UseStableSwap.run (stable_quoted "4.99" true)
             (events
                (UseStableSwap.getEstimate (stable_resolves "5.01")
                   (options usdt usdc "5" 0.5 true))))
          true)
     = Some (percentLess 0.5 "4.99").
Proof.
  destruct (stable_submission_after_cycle stable_rejects Cases.accepts
              (options usdt usdc "5" 0.5 false) usdt usdc
              (stable_quoted "4.99" false) true eq_refl eq_refl eq_refl)
    as (_ & Hfail & _).
  destruct (Hfail (Rejection "no pool") eq_refl) as [Hmin Hpool].
  destruct (stable_submission_after_cycle (stable_resolves "5.01")
              Cases.accepts
              (options usdt usdc "5" 0.5 true) usdt usdc
              (stable_quoted "4.99" true) true eq_refl eq_refl eq_refl)
    as (_ & _ & Hok).
  destruct (Hok {| StableView.estimate := "5.01";
                   StableView.pool := Some pool_b;
                   StableView.dy := "5.01" |} pool_b
              eq_refl eq_refl eq_refl eq_refl) as [_ Hbg].
  split; [exact Hmin | split; [exact Hpool | exact Hbg]].
Defined.

(** X11 on a list with a popular token, an undefined entry, a token left
    out of the array, and a symbol in another case. *)
Lemma common_basses_are_the_listed_symbols_witness :
  In (Some (Cases.token "usdt.tether-token.near" "USDT"))
    (CommonBasses.commonBassesTokens
       [Some (Cases.token "wrap.near" "wNEAR"); None;
        Some (Cases.token "flux.near" "FLX");
        Some (Cases.token "usdt.tether-token.near" "USDT");
        Some (Cases.token "fake.near" "WNEAR")])
  /\ ~ In (Some (Cases.token "fake.near" "WNEAR"))
         (CommonBasses.commonBassesTokens
            [Some (Cases.token "wrap.near" "wNEAR"); None;
             Some (Cases.token "flux.near" "FLX");
             Some (Cases.token "usdt.tether-token.near" "USDT");
             Some (Cases.token "fake.near" "WNEAR")]).
Proof.
  split.
  - apply (proj1 (common_basses_are_the_listed_symbols _)).
    split.
    + right. right. right. left. reflexivity.
    + eexists. split; [reflexivity |].
      do 5 right. left. reflexivity.
  - intro H.
    apply (proj1 (common_basses_are_the_listed_symbols _)) in H.
    destruct H as (_ & t & Ht & Hsym). injection Ht as <-.
    simpl in Hsym.
    repeat (destruct Hsym as [Hsym | Hsym]; [discriminate Hsym |]).
    exact Hsym.
Defined.

(** X12 on a lookup that times out, and on a blank hash. *)
Lemma outcome_effect_off_the_resolved_path_witness :
  TxOutcome.txHashEffect (fun _ => Throw (Rejection "timeout"))
    (returned_from_wallet None)
  = ([TxOutcome.CheckTransaction "9uZxS2"], Throw (Rejection "timeout"))
  /\ TxOutcome.navigation_after (returned_from_wallet None)
       (events
          (TxOutcome.txHashEffect (fun _ => Throw (Rejection "timeout"))
             (returned_from_wallet None)))
     = returned_from_wallet None
  /\ events
       (TxOutcome.txHashEffect (fun _ => Normal None)
          (returned_from_wallet None))
     = [TxOutcome.CheckTransaction "9uZxS2"; TxOutcome.HistoryReplace "/swap"].
Proof.
  destruct (outcome_effect_off_the_resolved_path
              (fun _ => Throw (Rejection "timeout"))
              (returned_from_wallet None)) as (_ & Hrej & _).
  destruct (Hrej (Rejection "timeout") eq_refl eq_refl) as [Heff Hnav].
  split; [exact Heff | split; [exact Hnav |]].
  exact (proj1 (proj2 (proj2 (outcome_effect_off_the_resolved_path
                                (fun _ => Normal None)
                                (returned_from_wallet None))))
           eq_refl eq_refl).
Defined.
